(** * bitcoin_frontend: feature gating and the live-streaming page

    A shallow embedding of
    - [src/lib/subscriptionUtils.ts] (the feature table, [getFeatureAccess],
      [hasAccess]),
    - [main.tsx] (the process-wide [window.WebSocket] override), and
    - the live-streaming page (its React state, the WebSocket handlers, the
      reconnect timer, the status query and the test-signal button),
    followed by the properties established about them. *)

From Stdlib Require Import ZArith QArith Lia.
From Stdlib Require Import Floats.SpecFloat.
From stdpp Require Import base list strings.

Set Warnings "-register-all".

Local Open Scope Z_scope.
Local Open Scope string_scope.

(** ** JavaScript values *)

Module JS.

(** What [JSON.parse] can produce, plus [undefined], which property reads
    add.  A number is an IEEE-754 double, kept as data. *)
Inductive value : Type :=
| VUndefined
| VNull
| VBool (b : bool)
| VNum (x : spec_float)
| VStr (s : string)
| VArr (items : list value)
| VObj (props : list (string * value)).

Inductive exn : Type :=
| TypeError (what : string)
| SyntaxError (what : string)
| DOMException (what : string).

(** Own-property lookup in an object literal; keys are unique after
    [JSON.parse]. *)
Fixpoint own_prop (props : list (string * value)) (k : string) : value :=
  match props with
  | [] => VUndefined
  | (k', v) :: rest => if String.eqb k k' then v else own_prop rest k
  end.

(** [v.k] for the property names this program reads ([type], [data],
    [message], [signalType], [symbol], [price], [isActivelyStreaming]):
    none of them exists on the prototypes of numbers, booleans, strings or
    arrays, so there the read gives [undefined]; on [null] and
    [undefined] it throws. *)
Definition get_prop (v : value) (k : string) : exn + value :=
  match v with
  | VUndefined => inl (TypeError "Cannot read properties of undefined")
  | VNull => inl (TypeError "Cannot read properties of null")
  | VObj props => inr (own_prop props k)
  | _ => inr VUndefined
  end.


(** Truthiness, as [||], [?:] and [Boolean()] see it. *)
Definition truthy (v : value) : bool :=
  match v with
  | VUndefined | VNull => false
  | VBool b => b
  | VNum (S754_zero _) | VNum S754_nan => false
  | VNum _ => true
  | VStr EmptyString => false
  | VStr _ => true
  | VArr _ | VObj _ => true
  end.

(** [v === "lit"] against a string literal. *)
Definition strict_eq_str (v : value) (lit : string) : bool :=
  match v with
  | VStr s => String.eqb s lit
  | _ => false
  end.

End JS.

(** ** src/lib/subscriptionUtils.ts *)

Module SubscriptionUtils.

Record FeatureAccess : Type := {
  basicSignals : bool;
  premiumSignals : bool;
  realTimeAlerts : bool;
  trading_dashboard : bool;
  basicCharts : bool;
  advancedCharts : bool;
  heatmapAnalysis : bool;
  cycleForecasting : bool;
  tradingPlayground : bool;
  emailAlerts : bool;
  smsAlerts : bool;
  telegramAlerts : bool;
  pushNotifications : bool;
  advancedAlerts : bool;
  multiChannelAlerts : bool;
  maxTickers : Z;
  maxSignalsPerMonth : Z;
  advancedAnalytics : bool;
  historicalData : bool;
  liveStreaming : bool;
  adminAccess : bool;
  apiAccess : bool;
  prioritySupport : bool;
  customIndicators : bool;
  whiteLabel : bool
}.

(** [keyof FeatureAccess]. *)
Inductive FeatureKey : Type :=
| k_basicSignals | k_premiumSignals | k_realTimeAlerts
| k_trading_dashboard
| k_basicCharts | k_advancedCharts | k_heatmapAnalysis
| k_cycleForecasting | k_tradingPlayground
| k_emailAlerts | k_smsAlerts | k_telegramAlerts | k_pushNotifications
| k_advancedAlerts | k_multiChannelAlerts
| k_maxTickers | k_maxSignalsPerMonth
| k_advancedAnalytics | k_historicalData | k_liveStreaming
| k_adminAccess
| k_apiAccess | k_prioritySupport | k_customIndicators | k_whiteLabel.

(** A field of the record is a boolean or a number. *)
Inductive FieldValue : Type :=
| FBool (b : bool)
| FNum (n : Z).

(** [access[requiredFeature]]. *)
Definition index (access : FeatureAccess) (k : FeatureKey) : FieldValue :=
  match k with
  | k_basicSignals => FBool (basicSignals access)
  | k_premiumSignals => FBool (premiumSignals access)
  | k_realTimeAlerts => FBool (realTimeAlerts access)
  | k_trading_dashboard => FBool (trading_dashboard access)
  | k_basicCharts => FBool (basicCharts access)
  | k_advancedCharts => FBool (advancedCharts access)
  | k_heatmapAnalysis => FBool (heatmapAnalysis access)
  | k_cycleForecasting => FBool (cycleForecasting access)
  | k_tradingPlayground => FBool (tradingPlayground access)
  | k_emailAlerts => FBool (emailAlerts access)
  | k_smsAlerts => FBool (smsAlerts access)
  | k_telegramAlerts => FBool (telegramAlerts access)
  | k_pushNotifications => FBool (pushNotifications access)
  | k_advancedAlerts => FBool (advancedAlerts access)
  | k_multiChannelAlerts => FBool (multiChannelAlerts access)
  | k_maxTickers => FNum (maxTickers access)
  | k_maxSignalsPerMonth => FNum (maxSignalsPerMonth access)
  | k_advancedAnalytics => FBool (advancedAnalytics access)
  | k_historicalData => FBool (historicalData access)
  | k_liveStreaming => FBool (liveStreaming access)
  | k_adminAccess => FBool (adminAccess access)
  | k_apiAccess => FBool (apiAccess access)
  | k_prioritySupport => FBool (prioritySupport access)
  | k_customIndicators => FBool (customIndicators access)
  | k_whiteLabel => FBool (whiteLabel access)
  end.

(** [Boolean(x)] on a boolean or an integer-valued number. *)
Definition Boolean (x : FieldValue) : bool :=
  match x with
  | FBool b => b
  | FNum n => negb (Z.eqb n 0)
  end.

(** [SUBSCRIPTION_FEATURES.none] *)
Definition SUBSCRIPTION_FEATURES_none : FeatureAccess := {|
  basicSignals := false; premiumSignals := false; realTimeAlerts := false;
  trading_dashboard := false;
  basicCharts := false; advancedCharts := false; heatmapAnalysis := false;
  cycleForecasting := false; tradingPlayground := false;
  emailAlerts := false; smsAlerts := false; telegramAlerts := false;
  pushNotifications := false; advancedAlerts := false;
  multiChannelAlerts := false;
  maxTickers := 0; maxSignalsPerMonth := 0;
  advancedAnalytics := false; historicalData := false;
  liveStreaming := false;
  adminAccess := false;
  apiAccess := false; prioritySupport := false; customIndicators := false;
  whiteLabel := false
|}.

(** [SUBSCRIPTION_FEATURES.pro] *)
Definition SUBSCRIPTION_FEATURES_pro : FeatureAccess := {|
  basicSignals := true; premiumSignals := true; realTimeAlerts := true;
  trading_dashboard := true;
  basicCharts := true; advancedCharts := true; heatmapAnalysis := true;
  cycleForecasting := true; tradingPlayground := true;
  emailAlerts := true; smsAlerts := true; telegramAlerts := true;
  pushNotifications := true; advancedAlerts := true;
  multiChannelAlerts := true;
  maxTickers := -1; maxSignalsPerMonth := -1;
  advancedAnalytics := true; historicalData := true;
  liveStreaming := true;
  adminAccess := false;
  apiAccess := true; prioritySupport := true; customIndicators := true;
  whiteLabel := false
|}.

(** [SUBSCRIPTION_FEATURES.elite] *)
Definition SUBSCRIPTION_FEATURES_elite : FeatureAccess := {|
  basicSignals := true; premiumSignals := true; realTimeAlerts := true;
  trading_dashboard := true;
  basicCharts := true; advancedCharts := true; heatmapAnalysis := true;
  cycleForecasting := true; tradingPlayground := true;
  emailAlerts := true; smsAlerts := true; telegramAlerts := true;
  pushNotifications := true; advancedAlerts := true;
  multiChannelAlerts := true;
  maxTickers := -1; maxSignalsPerMonth := -1;
  advancedAnalytics := true; historicalData := true;
  liveStreaming := true;
  adminAccess := false;
  apiAccess := true; prioritySupport := true; customIndicators := true;
  whiteLabel := true
|}.

(** A tier is [string | null]; [None] is [null], which is also what the
    default parameter supplies. *)
Definition Tier : Type := option string.

Definition tier_is (t : Tier) (lit : string) : bool :=
  match t with
  | Some s => String.eqb s lit
  | None => false
  end.

Definition getFeatureAccess (subscriptionTier : Tier) : FeatureAccess :=
  if tier_is subscriptionTier "elite" then SUBSCRIPTION_FEATURES_elite
  else if tier_is subscriptionTier "pro" then SUBSCRIPTION_FEATURES_pro
  else SUBSCRIPTION_FEATURES_none.

(** The debug [console.log] is not part of the result. *)
Definition hasAccess (userTier : Tier) (requiredFeature : FeatureKey) : bool :=
  let access := getFeatureAccess userTier in
  let hasFeature := Boolean (index access requiredFeature) in
  hasFeature.

End SubscriptionUtils.

(** ** src/lib/subscriptionUtils.ts: messages and badges *)

Module UpgradeMessages.
Import SubscriptionUtils.

(** The property name behind each [keyof FeatureAccess]. *)
Definition key_name (k : FeatureKey) : string :=
  match k with
  | k_basicSignals => "basicSignals"
  | k_premiumSignals => "premiumSignals"
  | k_realTimeAlerts => "realTimeAlerts"
  | k_trading_dashboard => "trading_dashboard"
  | k_basicCharts => "basicCharts"
  | k_advancedCharts => "advancedCharts"
  | k_heatmapAnalysis => "heatmapAnalysis"
  | k_cycleForecasting => "cycleForecasting"
  | k_tradingPlayground => "tradingPlayground"
  | k_emailAlerts => "emailAlerts"
  | k_smsAlerts => "smsAlerts"
  | k_telegramAlerts => "telegramAlerts"
  | k_pushNotifications => "pushNotifications"
  | k_advancedAlerts => "advancedAlerts"
  | k_multiChannelAlerts => "multiChannelAlerts"
  | k_maxTickers => "maxTickers"
  | k_maxSignalsPerMonth => "maxSignalsPerMonth"
  | k_advancedAnalytics => "advancedAnalytics"
  | k_historicalData => "historicalData"
  | k_liveStreaming => "liveStreaming"
  | k_adminAccess => "adminAccess"
  | k_apiAccess => "apiAccess"
  | k_prioritySupport => "prioritySupport"
  | k_customIndicators => "customIndicators"
  | k_whiteLabel => "whiteLabel"
  end.

(** The object literal [upgradeMessages], in source order. *)
Definition upgradeMessages : list (string * string) :=
  [("premiumSignals",
    "Upgrade to Elite plan to access premium trading signals");
   ("advancedCharts",
    "Upgrade to Elite plan to unlock advanced chart features");
   ("heatmapAnalysis",
    "Upgrade to Elite plan to view 200-week heatmap analysis");
   ("cycleForecasting", "Upgrade to Elite plan to access cycle forecasting");
   ("smsAlerts", "Upgrade to Elite plan to enable SMS alerts");
   ("telegramAlerts",
    "Upgrade to Elite plan to enable Telegram notifications");
   ("advancedAlerts",
    "Upgrade to Elite plan to create advanced alert conditions");
   ("advancedAnalytics",
    "Upgrade to Elite plan to unlock advanced analytics");
   ("apiAccess", "Upgrade to Elite plan to access API features");
   ("customIndicators",
    "Upgrade to Elite plan to create custom indicators");
   ("whiteLabel", "Upgrade to Elite plan for white-label solutions");
   ("realTimeAlerts", "Upgrade to Elite plan to access real-time alerts");
   ("trading_dashboard",
    "Upgrade to Elite plan to access the trading dashboard");
   ("basicSignals", "Upgrade to Elite plan to access trading signals")].

(** What an object literal inherits from [Object.prototype]: a read of one
    of these names finds a function (or, for [__proto__], the prototype
    itself), all of them truthy. *)
Definition Object_prototype_members : list string :=
  ["constructor"; "hasOwnProperty"; "isPrototypeOf"; "propertyIsEnumerable";
   "toLocaleString"; "toString"; "valueOf"; "__proto__";
   "__defineGetter__"; "__defineSetter__"; "__lookupGetter__";
   "__lookupSetter__"].

Fixpoint own_message (table : list (string * string)) (k : string)
    : option string :=
  match table with
  | [] => None
  | (k', text) :: rest => if String.eqb k k' then Some text else own_message rest k
  end.

Fixpoint mem_string (k : string) (l : list string) : bool :=
  match l with
  | [] => false
  | k' :: rest => if String.eqb k k' then true else mem_string k rest
  end.

(** What [getUpgradeMessage] returns: a message, or for an inherited name
    the member of [Object.prototype] found under it. *)
Inductive UpgradeMessage : Type :=
| Message (text : string)
| InheritedMember (name : string).

Definition default_message : string :=
  "Upgrade to Elite plan to access this feature".

(** [upgradeMessages[feature] || "Upgrade to Elite plan to access this
    feature"]; every message of the table is a non-empty string, hence
    truthy. *)
Definition getUpgradeMessage (feature : string) : UpgradeMessage :=
  match own_message upgradeMessages feature with
  | Some text => Message text
  | None =>
      if mem_string feature Object_prototype_members
      then InheritedMember feature
      else Message default_message
  end.

(** [colors.elite] and [colors.none]. *)
Definition colors_elite : string :=
  "bg-gradient-to-r from-yellow-400 to-yellow-600 text-black font-bold".
Definition colors_none : string := "bg-gray-500 text-white".

Definition getPlanBadgeColor (tier : Tier) : string :=
  if tier_is tier "elite" then colors_elite else colors_none.

End UpgradeMessages.

(** ** The pricing page: which price and which billing interval *)

Module Pricing.
Import JS.

(** [number | null] *)
Inductive NullableNumber : Type :=
| Null
| Num (x : spec_float).

Record SubscriptionPlan : Type := {
  id : string;
  name : string;
  tier : string;
  monthlyPrice : spec_float;
  yearlyPrice : NullableNumber;
  features : list string;
  maxSignals : NullableNumber;
  maxTickers : NullableNumber;
  isActive : bool
}.

Definition as_value (n : NullableNumber) : value :=
  match n with
  | Null => VNull
  | Num x => VNum x
  end.

(** [x > 0] on numbers. *)
Definition positive_number (x : spec_float) : bool :=
  SFltb (S754_zero false) x.

(** [plan.yearlyPrice && plan.yearlyPrice > 0]: the left operand when it is
    falsy ([null], [0], [NaN]), otherwise the comparison. *)
Definition hasYearlyPrice (plan : SubscriptionPlan) : value :=
  if truthy (as_value (yearlyPrice plan)) then
    match yearlyPrice plan with
    | Num x => VBool (positive_number x)
    | Null => VBool false
    end
  else as_value (yearlyPrice plan).

(** [isAnnual && hasYearlyPrice] *)
Definition showYearlyPrice (isAnnual : bool) (plan : SubscriptionPlan) : value :=
  if isAnnual then hasYearlyPrice plan else VBool false.

(** [handleStripeCheckout]: [hasYearlyPrice && isAnnual ? "yearly" :
    "monthly"]. *)
Definition stripe_billingInterval (isAnnual : bool) (plan : SubscriptionPlan)
    : string :=
  if truthy (hasYearlyPrice plan) && isAnnual then "yearly" else "monthly".

(** The body sent to [/api/create-subscription]. *)
Record CreateSubscription : Type := {
  planTier : string;
  billingInterval : string
}.

Definition stripe_request (isAnnual : bool) (plan : SubscriptionPlan)
    : CreateSubscription :=
  {| planTier := tier plan;
     billingInterval := stripe_billingInterval isAnnual plan |}.





Definition card_period (isAnnual : bool) (plan : SubscriptionPlan) : string :=
  if truthy (showYearlyPrice isAnnual plan) then "year" else "month".

(** [subscriptionPlans.some(plan => plan.yearlyPrice)] *)
Definition hasYearlyPlans (subscriptionPlans : list SubscriptionPlan) : bool :=
  existsb (fun plan => truthy (as_value (yearlyPrice plan))) subscriptionPlans.

(** [isAnnual] after the effect
    [if (isAnnual && !hasYearlyPlans) setIsAnnual(false)]. *)
Definition auto_switch (isAnnual : bool)
    (subscriptionPlans : list SubscriptionPlan) : bool :=
  if isAnnual && negb (hasYearlyPlans subscriptionPlans) then false
  else isAnnual.

(** [subscriptionPlans.filter(plan => plan.isActive)] *)
Definition activePlans (subscriptionPlans : list SubscriptionPlan)
    : list SubscriptionPlan :=
  List.filter isActive subscriptionPlans.

End Pricing.

(** ** The live-streaming page and the WebSocket override of main.tsx *)

Module Page.
Import JS.

(** *** What the page and its environment consist of *)

Inductive ReadyState : Type := CONNECTING | OPEN | CLOSING | CLOSED.

(** The state variables a render hands to the closures it creates:
    [connectWebSocket], the four socket handlers and the timer callback
    read [isStreaming] and [connectionAttempts] from here, not from the
    live state. *)
Record Render : Type := {
  r_isStreaming : bool;
  r_connectionAttempts : nat
}.

(** A socket object: a native WebSocket, or the inert object literal that
    the override in main.tsx returns.  [handlers] is the render whose
    [onopen]/[onmessage]/[onclose]/[onerror] closures were assigned. *)
Inductive SocketObject : Type :=
| Native (url : string) (readyState : ReadyState) (handlers : option Render)
| Mock (handlers : option Render).

(** A [setTimeout] entry: the reconnect callback of render [tm_render]. *)
Record Timer : Type := {
  tm_delay : Z;
  tm_render : Render;
  tm_pending : bool
}.

Inductive ToastVariant : Type := variant_default | variant_destructive.

(** One constructor per [toast({...})] call site.  A signal toast keeps
    the values its title, description and variant are built from. *)
Inductive Toast : Type :=
| ToastConnected
| ToastSignal (signalType : string) (symbol price : value)
| ToastConnectionError
| ToastConnectionFailed
| ToastTestSignalSent
| ToastTestSignalError.

(** A title is a literal, or [`${signalType.toUpperCase()} Signal`], kept
    symbolic. *)
Inductive Title : Type :=
| Literal (text : string)
| UpperCasedSignal (signalType : string).

Definition toast_title (t : Toast) : Title :=
  match t with
  | ToastConnected => Literal "Connected"
  | ToastSignal signalType _ _ => UpperCasedSignal signalType
  | ToastConnectionError => Literal "Connection Error"
  | ToastConnectionFailed => Literal "Connection Failed"
  | ToastTestSignalSent => Literal "Test Signal Sent"
  | ToastTestSignalError => Literal "Error"
  end.

Definition toast_variant (t : Toast) : ToastVariant :=
  match t with
  | ToastConnected | ToastTestSignalSent => variant_default
  | ToastSignal signalType _ _ =>
      if String.eqb signalType "buy" then variant_default
      else variant_destructive
  | ToastConnectionError | ToastConnectionFailed | ToastTestSignalError =>
      variant_destructive
  end.

Inductive ConsoleEntry : Type :=
| ConsoleLog (msg : string)
| ConsoleWarn (msg : string)
| ConsoleError (msg : string).

(** A call [apiRequest(url, init)]; [apiRequest] lives in lib/queryClient.
    [api_body] is the value handed to [JSON.stringify]. *)
Record ApiCall : Type := {
  api_url : string;
  api_method : option string;
  api_body : option value
}.

Record State : Type := {
  (* useState / useRef *)
  isConnected : bool;
  isStreaming : bool;
  liveSignals : list value;
  connectionAttempts : nat;
  wsRef : option nat;
  (* the browser side: every socket created, every timer set *)
  sockets : list SocketObject;
  timers : list Timer;
  pendingTestSignals : nat;
  (* what the page emitted *)
  toasts : list Toast;
  console : list ConsoleEntry;
  apiCalls : list ApiCall;
  uncaught : list exn
}.

Definition with_isConnected (b : bool) (s : State) : State :=
  {| isConnected := b; isStreaming := isStreaming s;
     liveSignals := liveSignals s;
     connectionAttempts := connectionAttempts s; wsRef := wsRef s;
     sockets := sockets s; timers := timers s;
     pendingTestSignals := pendingTestSignals s; toasts := toasts s;
     console := console s; apiCalls := apiCalls s;
     uncaught := uncaught s |}.

Definition with_isStreaming (b : bool) (s : State) : State :=
  {| isConnected := isConnected s; isStreaming := b;
     liveSignals := liveSignals s;
     connectionAttempts := connectionAttempts s; wsRef := wsRef s;
     sockets := sockets s; timers := timers s;
     pendingTestSignals := pendingTestSignals s; toasts := toasts s;
     console := console s; apiCalls := apiCalls s;
     uncaught := uncaught s |}.

Definition with_liveSignals (l : list value) (s : State) : State :=
  {| isConnected := isConnected s; isStreaming := isStreaming s;
     liveSignals := l;
     connectionAttempts := connectionAttempts s; wsRef := wsRef s;
     sockets := sockets s; timers := timers s;
     pendingTestSignals := pendingTestSignals s; toasts := toasts s;
     console := console s; apiCalls := apiCalls s;
     uncaught := uncaught s |}.

Definition with_connectionAttempts (n : nat) (s : State) : State :=
  {| isConnected := isConnected s; isStreaming := isStreaming s;
     liveSignals := liveSignals s;
     connectionAttempts := n; wsRef := wsRef s;
     sockets := sockets s; timers := timers s;
     pendingTestSignals := pendingTestSignals s; toasts := toasts s;
     console := console s; apiCalls := apiCalls s;
     uncaught := uncaught s |}.

Definition with_wsRef (r : option nat) (s : State) : State :=
  {| isConnected := isConnected s; isStreaming := isStreaming s;
     liveSignals := liveSignals s;
     connectionAttempts := connectionAttempts s; wsRef := r;
     sockets := sockets s; timers := timers s;
     pendingTestSignals := pendingTestSignals s; toasts := toasts s;
     console := console s; apiCalls := apiCalls s;
     uncaught := uncaught s |}.

Definition with_sockets (l : list SocketObject) (s : State) : State :=
  {| isConnected := isConnected s; isStreaming := isStreaming s;
     liveSignals := liveSignals s;
     connectionAttempts := connectionAttempts s; wsRef := wsRef s;
     sockets := l; timers := timers s;
     pendingTestSignals := pendingTestSignals s; toasts := toasts s;
     console := console s; apiCalls := apiCalls s;
     uncaught := uncaught s |}.

Definition with_timers (l : list Timer) (s : State) : State :=
  {| isConnected := isConnected s; isStreaming := isStreaming s;
     liveSignals := liveSignals s;
     connectionAttempts := connectionAttempts s; wsRef := wsRef s;
     sockets := sockets s; timers := l;
     pendingTestSignals := pendingTestSignals s; toasts := toasts s;
     console := console s; apiCalls := apiCalls s;
     uncaught := uncaught s |}.

Definition with_pendingTestSignals (n : nat) (s : State) : State :=
  {| isConnected := isConnected s; isStreaming := isStreaming s;
     liveSignals := liveSignals s;
     connectionAttempts := connectionAttempts s; wsRef := wsRef s;
     sockets := sockets s; timers := timers s;
     pendingTestSignals := n; toasts := toasts s;
     console := console s; apiCalls := apiCalls s;
     uncaught := uncaught s |}.

Definition with_toasts (l : list Toast) (s : State) : State :=
  {| isConnected := isConnected s; isStreaming := isStreaming s;
     liveSignals := liveSignals s;
     connectionAttempts := connectionAttempts s; wsRef := wsRef s;
     sockets := sockets s; timers := timers s;
     pendingTestSignals := pendingTestSignals s; toasts := l;
     console := console s; apiCalls := apiCalls s;
     uncaught := uncaught s |}.

Definition with_console (l : list ConsoleEntry) (s : State) : State :=
  {| isConnected := isConnected s; isStreaming := isStreaming s;
     liveSignals := liveSignals s;
     connectionAttempts := connectionAttempts s; wsRef := wsRef s;
     sockets := sockets s; timers := timers s;
     pendingTestSignals := pendingTestSignals s; toasts := toasts s;
     console := l; apiCalls := apiCalls s;
     uncaught := uncaught s |}.

Definition with_apiCalls (l : list ApiCall) (s : State) : State :=
  {| isConnected := isConnected s; isStreaming := isStreaming s;
     liveSignals := liveSignals s;
     connectionAttempts := connectionAttempts s; wsRef := wsRef s;
     sockets := sockets s; timers := timers s;
     pendingTestSignals := pendingTestSignals s; toasts := toasts s;
     console := console s; apiCalls := l;
     uncaught := uncaught s |}.

Definition with_uncaught (l : list exn) (s : State) : State :=
  {| isConnected := isConnected s; isStreaming := isStreaming s;
     liveSignals := liveSignals s;
     connectionAttempts := connectionAttempts s; wsRef := wsRef s;
     sockets := sockets s; timers := timers s;
     pendingTestSignals := pendingTestSignals s; toasts := toasts s;
     console := console s; apiCalls := apiCalls s;
     uncaught := l |}.

(** *** Statements that may throw: a state and exception monad *)

Inductive Res (A : Type) : Type :=
| Ok (a : A) (s : State)
| Throw (e : exn) (s : State).
Arguments Ok {A} a s.
Arguments Throw {A} e s.

Definition M (A : Type) : Type := State -> Res A.

#[global] Instance M_ret : MRet M := fun A a s => Ok a s.

#[global] Instance M_bind : MBind M := fun A B f m s =>
  match m s with
  | Ok a s' => f a s'
  | Throw e s' => Throw e s'
  end.

Definition throw {A : Type} (e : exn) : M A := fun s => Throw e s.

(** [try { body } catch (error) { handler }] *)
Definition try_catch {A : Type} (body : M A) (handler : exn -> M A) : M A :=
  fun s =>
    match body s with
    | Ok a s' => Ok a s'
    | Throw e s' => handler e s'
    end.

Definition get : M State := fun s => Ok s s.
Definition modify (f : State -> State) : M unit := fun s => Ok tt (f s).

Definition lift {A : Type} (r : exn + A) : M A :=
  match r with
  | inl e => throw e
  | inr a => mret a
  end.

(** The state after a browser-invoked callback; an exception that leaves
    the callback is reported as uncaught. *)
Definition dispatch (callback : M unit) (s : State) : State :=
  match callback s with
  | Ok _ s' => s'
  | Throw e s' => with_uncaught (uncaught s' ++ [e]) s'
  end.

(** *** Primitive effects *)

Definition setIsConnected (b : bool) : M unit := modify (with_isConnected b).
Definition setIsStreaming (b : bool) : M unit := modify (with_isStreaming b).
Definition setConnectionAttempts (f : nat -> nat) : M unit :=
  modify (fun s => with_connectionAttempts (f (connectionAttempts s)) s).
Definition setLiveSignals (f : list value -> list value) : M unit :=
  modify (fun s => with_liveSignals (f (liveSignals s)) s).
Definition set_wsRef (r : option nat) : M unit := modify (with_wsRef r).
Definition toast (t : Toast) : M unit :=
  modify (fun s => with_toasts (toasts s ++ [t]) s).
Definition console_log (msg : string) : M unit :=
  modify (fun s => with_console (console s ++ [ConsoleLog msg]) s).
Definition console_warn (msg : string) : M unit :=
  modify (fun s => with_console (console s ++ [ConsoleWarn msg]) s).
Definition console_error (msg : string) : M unit :=
  modify (fun s => with_console (console s ++ [ConsoleError msg]) s).

(** [apiRequest(url, init)]: the call is recorded; its promise settles
    later. *)
Definition apiRequest (url : string) (method : option string)
    (body : option value) : M unit :=
  modify (fun s =>
    with_apiCalls
      (apiCalls s ++
         [{| api_url := url; api_method := method; api_body := body |}]) s).

(** [setTimeout(callback, delay)] where the callback is the reconnect
    closure of render [r]. *)
Definition setTimeout (r : Render) (delay : Z) : M unit :=
  modify (fun s =>
    with_timers
      (timers s ++
         [{| tm_delay := delay; tm_render := r; tm_pending := true |}]) s).

(** Allocation of a socket object; its index is its identity. *)
Definition new_socket (o : SocketObject) : M nat :=
  fun s => Ok (length (sockets s)) (with_sockets (sockets s ++ [o]) s).

Definition set_handlers (r : Render) (o : SocketObject) : SocketObject :=
  match o with
  | Native url rs _ => Native url rs (Some r)
  | Mock _ => Mock (Some r)
  end.

(** [ws.close()]: a native socket that is connecting or open starts
    closing (its close event comes later); the mock's [close] is
    [() => {}]. *)
Definition close_socket (o : SocketObject) : SocketObject :=
  match o with
  | Native url CONNECTING h | Native url OPEN h => Native url CLOSING h
  | _ => o
  end.

Definition update_socket (id : nat) (f : SocketObject -> SocketObject) : M unit :=
  modify (fun s =>
    match sockets s !! id with
    | Some o => with_sockets (<[id := f o]> (sockets s)) s
    | None => s
    end).

(** The updater handed to [setLiveSignals]:
    [prev => [signal, ...prev.slice(0, 49)]]. *)
Definition prepend_signal {A : Type} (signal : A) (prev : list A) : list A :=
  signal :: take 49 prev.

(** The buffer after the updater has run for each of [signals], oldest
    first. *)
Definition push_all {A : Type} (signals : list A) (buffer : list A) : list A :=
  foldl (fun prev signal => prepend_signal signal prev) buffer signals.

(** *** main.tsx: the [window.WebSocket] override *)

(** What the page's code cannot see from inside: where it was loaded from,
    which strings [new URL] accepts, and which the native constructor
    accepts. *)
Record Browser : Type := {
  location_protocol : string;
  location_host : string;
  URL_parses : string -> bool;
  native_accepts : string -> bool
}.

Section WithBrowser.
Variable B : Browser.

(** [new URL(url)], for its exception only. *)
Definition new_URL (url : string) : M unit :=
  if URL_parses B url then mret tt
  else throw (TypeError "Invalid URL").

(** [new OriginalWebSocket(url, protocols)] *)
Definition OriginalWebSocket (url : string) : M nat :=
  if native_accepts B url then new_socket (Native url CONNECTING None)
  else throw (DOMException "Failed to construct 'WebSocket'").

(** The replacement installed on [window.WebSocket]. *)
Definition WebSocket_override (url : string) : M nat :=
  try_catch
    (new_URL url;;
     OriginalWebSocket url)
    (fun error =>
       console_warn "Invalid WebSocket URL, skipping connection:";;
       new_socket (Mock None)).

(** *** The page's functions

    [WebSocket] is whatever constructor [new WebSocket(wsUrl)] resolves
    to; in the running application that is [WebSocket_override]. *)
Variable WebSocket : string -> M nat.

Definition JSON_parse (data : option value) : M value :=
  match data with
  | Some v => mret v
  | None => throw (SyntaxError "Unexpected token")
  end.

(** [x.toUpperCase()]: only a string has the method. *)
Definition toUpperCase_receiver (x : value) : M string :=
  match x with
  | VStr s => mret s
  | VUndefined | VNull =>
      throw (TypeError "Cannot read properties of undefined")
  | _ => throw (TypeError "toUpperCase is not a function")
  end.

Definition onopen : M unit :=
  setIsConnected true;;
  setConnectionAttempts (fun _ => 0%nat);;
  toast ToastConnected.

(** [event.data] is given by what [JSON.parse] makes of it: [None] when
    it throws. *)
Definition onmessage (event_data : option value) : M unit :=
  try_catch
    (message ← JSON_parse event_data;
     console_log "WebSocket message received:";;
     type ← lift (get_prop message "type");
     if strict_eq_str type "signal" then
       signal ← lift (get_prop message "data");
       setLiveSignals (prepend_signal signal);;
       signalType ← lift (get_prop signal "signalType");
       direction ← toUpperCase_receiver signalType;
       symbol ← lift (get_prop signal "symbol");
       price ← lift (get_prop signal "price");
       toast (ToastSignal direction symbol price)
     else if strict_eq_str type "connection" then
       confirmation ← lift (get_prop message "message");
       console_log "WebSocket connection confirmed:"
     else mret tt)
    (fun error => console_error "Error parsing WebSocket message:").

Definition onclose (r : Render) : M unit :=
  setIsConnected false;;
  if r_isStreaming r && (r_connectionAttempts r <? 5)%nat then
    setTimeout r (2 ^ Z.of_nat (r_connectionAttempts r) * 1000)
  else mret tt.

Definition onerror : M unit :=
  console_error "WebSocket error:";;
  toast ToastConnectionError.

Definition wsUrl : string :=
  let protocol :=
    if String.eqb (location_protocol B) "https:" then "wss:" else "ws:" in
  protocol ++ "//" ++ location_host B ++ "/ws".

Definition connectWebSocket (r : Render) : M unit :=
  try_catch
    (ws ← WebSocket wsUrl;
     set_wsRef (Some ws);;
     update_socket ws (set_handlers r))
    (fun error =>
       console_error "Failed to create WebSocket connection:";;
       toast ToastConnectionFailed).

(** The callback handed to [setTimeout] by [onclose]. *)
Definition reconnect_callback (r : Render) : M unit :=
  setConnectionAttempts (fun prev => (prev + 1)%nat);;
  connectWebSocket r.

Definition disconnectWebSocket : M unit :=
  s ← get;
  match wsRef s with
  | Some ws =>
      update_socket ws close_socket;;
      set_wsRef None
  | None => mret tt
  end;;
  setIsConnected false.

Definition toggleStreaming (r : Render) : M unit :=
  setIsStreaming (negb (r_isStreaming r)).

(** The body of [useEffect(..., [isStreaming])] and its cleanup. *)
Definition effect (r : Render) : M unit :=
  if r_isStreaming r then connectWebSocket r else disconnectWebSocket.

Definition effect_cleanup : M unit := disconnectWebSocket.


Definition queryFn : M unit :=
  apiRequest "/api/admin/live-streaming" None None.

(** [sendTestSignal] up to its [await]; [random] is the value of
    [Math.random()]. *)
Definition sendTestSignal_call (random : Q) : M unit :=
  let signalType := if Qlt_le_dec (1 # 2) random then "buy" else "sell" in
  apiRequest "/api/admin/live-streaming/test" (Some "POST")
    (Some (VObj [("symbol", VStr "BTCUSDT");
                 ("signalType", VStr signalType)]));;
  modify (fun s => with_pendingTestSignals (S (pendingTestSignals s)) s).

(** [sendTestSignal] after its [await]: the promise resolved ([ok]) or
    rejected. *)
Definition sendTestSignal_resume (ok : bool) : M unit :=
  modify (fun s => with_pendingTestSignals (pred (pendingTestSignals s)) s);;
  if ok then toast ToastTestSignalSent else toast ToastTestSignalError.

Definition sendTestSignal (random : Q) (ok : bool) : M unit :=
  sendTestSignal_call random;;
  sendTestSignal_resume ok.

(** *** Events *)

Inductive Event : Type :=
| ClickToggleStreaming
| ClickRefreshStatus
| ClickSendTestSignal (random : Q)
| TestSignalSettled (ok : bool)
| WsOpen (ws : nat)
| WsMessage (ws : nat) (event_data : option value)
| WsError (ws : nat)
| WsClose (ws : nat)
| TimerFired (timer : nat).

(** The render that follows the latest state change. *)
Definition current_render (s : State) : Render :=
  {| r_isStreaming := isStreaming s;
     r_connectionAttempts := connectionAttempts s |}.

Definition set_readyState (rs : ReadyState) (o : SocketObject) : SocketObject :=
  match o with
  | Native url _ h => Native url rs h
  | Mock h => Mock h
  end.

Definition clear_pending (t : Timer) : Timer :=
  {| tm_delay := tm_delay t; tm_render := tm_render t;
     tm_pending := false |}.

(** One turn of the event loop; [None] when the event cannot occur in
    [s].  A click on the toggle re-renders with the flipped flag, and
    since [isStreaming] changed the old effect is cleaned up and the new
    one runs, with the closures of the new render. *)
Definition step (ev : Event) (s : State) : option State :=
  match ev with
  | ClickToggleStreaming =>
      let s1 := dispatch (toggleStreaming (current_render s)) s in
      let s2 := dispatch effect_cleanup s1 in
      Some (dispatch (effect (current_render s2)) s2)
  | ClickRefreshStatus => Some (dispatch queryFn s)
  | ClickSendTestSignal random =>
      Some (dispatch (sendTestSignal_call random) s)
  | TestSignalSettled ok =>
      match pendingTestSignals s with
      | O => None
      | S _ => Some (dispatch (sendTestSignal_resume ok) s)
      end
  | WsOpen ws =>
      match sockets s !! ws with
      | Some (Native _ CONNECTING (Some _)) =>
          Some (dispatch (update_socket ws (set_readyState OPEN);; onopen) s)
      | _ => None
      end
  | WsMessage ws event_data =>
      match sockets s !! ws with
      | Some (Native _ OPEN (Some _)) =>
          Some (dispatch (onmessage event_data) s)
      | _ => None
      end
  | WsError ws =>
      match sockets s !! ws with
      | Some (Native _ CLOSED _) => None
      | Some (Native _ _ (Some _)) => Some (dispatch onerror s)
      | _ => None
      end
  | WsClose ws =>
      match sockets s !! ws with
      | Some (Native _ CLOSED _) => None
      | Some (Native _ _ (Some r)) =>
          Some (dispatch
                  (update_socket ws (set_readyState CLOSED);; onclose r) s)
      | _ => None
      end
  | TimerFired timer =>
      match timers s !! timer with
      | Some t =>
          if tm_pending t then
            Some (dispatch (reconnect_callback (tm_render t))
                    (with_timers (<[timer := clear_pending t]> (timers s)) s))
          else None
      | None => None
      end
  end.

Fixpoint run (evs : list Event) (s : State) : option State :=
  match evs with
  | [] => Some s
  | ev :: rest =>
      match step ev s with
      | Some s' => run rest s'
      | None => None
      end
  end.

End WithBrowser.

(** The state the [useState]/[useRef] initialisers give. *)
Definition initial : State :=
  {| isConnected := false; isStreaming := false; liveSignals := [];
     connectionAttempts := 0; wsRef := None;
     sockets := []; timers := []; pendingTestSignals := 0;
     toasts := []; console := []; apiCalls := []; uncaught := [] |}.

(** The application: main.tsx has replaced [window.WebSocket] before the
    page is rendered. *)
Definition app_step (B : Browser) : Event -> State -> option State :=
  step B (WebSocket_override B).

Definition app_run (B : Browser) : list Event -> State -> option State :=
  run B (WebSocket_override B).

(** The page right after mounting: the effect has run once, with
    [isStreaming = false]. *)
Definition mounted (B : Browser) : State :=
  dispatch (effect B (WebSocket_override B) (current_render initial)) initial.

(** The pending reconnect timers and the delays of all timers ever set. *)
Definition pending_timers (s : State) : list Timer :=
  filter (fun t => tm_pending t = true) (timers s).

Definition scheduled_delays (s : State) : list Z :=
  tm_delay <$> timers s.

(** A browser that serves the page over plain http and accepts the
    resulting socket URL, and one whose socket URL is refused. *)
Definition localhost : Browser :=
  {| location_protocol := "http:"; location_host := "localhost:5000";
     URL_parses := fun _ => true; native_accepts := fun _ => true |}.

Definition refusing : Browser :=
  {| location_protocol := "http:"; location_host := "bad host";
     URL_parses := fun _ => false; native_accepts := fun _ => false |}.

(** *** Scenarios and predicates used in the statements below *)

(** A frame the handler recognises: it parses and its [type] is "signal"
    or "connection". *)
Definition recognized_frame (event_data : option value) : bool :=
  match event_data with
  | Some message =>
      match get_prop message "type" with
      | inr type => strict_eq_str type "signal" || strict_eq_str type "connection"
      | inl _ => false
      end
  | None => false
  end.

(** [n] reconnects in a row that never open: socket [k] fails with an error
    event followed by its close event, then the timer that its [onclose]
    set fires and creates socket [k + 1]. *)
Fixpoint failed_reconnects (n : nat) : list Event :=
  match n with
  | O => []
  | S k => failed_reconnects k ++ [WsError k; WsClose k; TimerFired k]
  end.

(** The user starts the stream and the server is unreachable. *)
Definition failed_session (n : nat) : list Event :=
  ClickToggleStreaming :: failed_reconnects n.

(** The render in which the stream was first switched on. *)
Definition first_on : Render :=
  {| r_isStreaming := true; r_connectionAttempts := 0 |}.

(** The page on [localhost] after [failed_session n]. *)
Definition retrying (n : nat) : State :=
  {| isConnected := false; isStreaming := true; liveSignals := [];
     connectionAttempts := n; wsRef := Some n;
     sockets :=
       replicate n (Native "ws://localhost:5000/ws" CLOSED (Some first_on))
       ++ [Native "ws://localhost:5000/ws" CONNECTING (Some first_on)];
     timers :=
       replicate n
         {| tm_delay := 1000; tm_render := first_on; tm_pending := false |};
     pendingTestSignals := 0;
     toasts := replicate n ToastConnectionError;
     console := replicate n (ConsoleError "WebSocket error:");
     apiCalls := []; uncaught := [] |}.

Definition is_connection_failed (t : Toast) : bool :=
  match t with
  | ToastConnectionFailed => true
  | _ => false
  end.

(** How many "Connection Failed" toasts were shown. *)
Definition connection_failed_toasts (s : State) : nat :=
  length (filter (fun t => is_connection_failed t = true) (toasts s)).

(** [m] returns, whatever the state. *)
Definition total {A : Type} (m : M A) : Prop :=
  ∀ s, ∃ a s', m s = Ok a s'.

(** [m] keeps [P], whether it returns or throws. *)
Definition keeps (P : State → Prop) {A : Type} (m : M A) : Prop :=
  ∀ s, P s → match m s with Ok _ s' | Throw _ s' => P s' end.

(** No exception has escaped a callback, the buffer respects its bound,
    and no "Connection Failed" toast has been shown. *)
Definition healthy (s : State) : Prop :=
  uncaught s = [] ∧ (length (liveSignals s) ≤ 50)%nat ∧
  ToastConnectionFailed ∉ toasts s.

(** The timer entry that [onclose] creates in render [r]. *)
Definition reconnect_timer (r : Render) : Timer :=
  {| tm_delay := 2 ^ Z.of_nat (r_connectionAttempts r) * 1000;
     tm_render := r; tm_pending := true |}.

(** Whether [new WebSocket(wsUrl)] succeeds in browser [B]. *)
Definition accepts_socket_url (B : Browser) : bool :=
  URL_parses B (wsUrl B) && native_accepts B (wsUrl B).

(** Five failed reconnects, then the stream is switched off and on
    again: the new render sees [connectionAttempts = 5]. *)
Definition restarted_after_5 : list Event :=
  failed_session 5 ++ [ClickToggleStreaming; ClickToggleStreaming].

Definition budget_spent : State :=
  Eval vm_compute in
    default initial (app_run localhost restarted_after_5 initial).

(** The stream is on and its socket has opened. *)
Definition streaming_open : State :=
  Eval vm_compute in
    default initial
      (app_run localhost [ClickToggleStreaming; WsOpen 0] initial).

(** One failed reconnect, then off and on again, and this time the socket
    opens. *)
Definition reopened_after_1 : list Event :=
  failed_session 1 ++ [ClickToggleStreaming; ClickToggleStreaming; WsOpen 2].

(** The stream was on with its socket open, and has been switched off. *)
Definition stopped_while_open : State :=
  Eval vm_compute in
    default initial
      (app_run localhost
         [ClickToggleStreaming; WsOpen 0; ClickToggleStreaming] initial).

(** The first socket has failed and its reconnect timer is pending. *)
Definition awaiting_reconnect : State :=
  Eval vm_compute in
    default initial
      (app_run localhost [ClickToggleStreaming; WsError 0; WsClose 0]
         initial).

(** The socket of the second session of [reopened_after_1] has closed. *)
Definition second_session_closed : State :=
  Eval vm_compute in
    default initial
      (app_run localhost (reopened_after_1 ++ [WsClose 2]) initial).

(** *** The states the page's functions lead to, written out *)

Definition socket_handlers (o : SocketObject) : option Render :=
  match o with
  | Native _ _ h => h
  | Mock h => h
  end.

Definition is_mock (o : SocketObject) : bool :=
  match o with
  | Mock _ => true
  | Native _ _ _ => false
  end.

(** The state [disconnectWebSocket] leaves. *)
Definition disconnected (s : State) : State :=
  with_isConnected false
    match wsRef s with
    | Some ws =>
        with_wsRef None
          match sockets s !! ws with
          | Some o => with_sockets (<[ws := close_socket o]> (sockets s)) s
          | None => s
          end
    | None => s
    end.

(** The state [connectWebSocket] of render [r] leaves in the application. *)
Definition connected (B : Browser) (r : Render) (s : State) : State :=
  if accepts_socket_url B then
    with_sockets (sockets s ++ [Native (wsUrl B) CONNECTING (Some r)])
      (with_wsRef (Some (length (sockets s))) s)
  else
    with_sockets (sockets s ++ [Mock (Some r)])
      (with_wsRef (Some (length (sockets s)))
         (with_console
            (console s ++
               [ConsoleWarn "Invalid WebSocket URL, skipping connection:"])
            s)).

(** The state a click on the toggle leaves. *)
Definition toggled (B : Browser) (s : State) : State :=
  let s2 := disconnected (with_isStreaming (negb (isStreaming s)) s) in
  if isStreaming s2 then connected B (current_render s2) s2
  else disconnected s2.

(** The events that belong to no socket life-cycle change: frames, transport
    errors, the Refresh Status button and the test-signal button. *)
Definition passive (ev : Event) : bool :=
  match ev with
  | ClickRefreshStatus | ClickSendTestSignal _ | TestSignalSettled _
  | WsMessage _ _ | WsError _ => true
  | ClickToggleStreaming | WsOpen _ | WsClose _ | TimerFired _ => false
  end.

(** What the connection supervisor works with: the two flags, the retry
    counter, the socket reference, the sockets and the timers. *)
Definition control_state (s : State)
    : bool * bool * nat * option nat * list SocketObject * list Timer :=
  (isConnected s, isStreaming s, connectionAttempts s, wsRef s, sockets s,
   timers s).

(** Every closure installed on a socket belongs to a render in which the
    stream was on. *)
Definition handlers_streaming (o : SocketObject) : Prop :=
  ∀ r, socket_handlers o = Some r → r_isStreaming r = true.

(** A timer as [onclose] sets it: for a render with the stream on and fewer
    than 5 attempts, after [2 ^ attempts] seconds. *)
Definition timer_in_schedule (t : Timer) : Prop :=
  r_isStreaming (tm_render t) = true ∧
  (r_connectionAttempts (tm_render t) < 5)%nat ∧
  tm_delay t = 2 ^ Z.of_nat (r_connectionAttempts (tm_render t)) * 1000.

Definition closures_streaming (s : State) : Prop :=
  Forall handlers_streaming (sockets s) ∧ Forall timer_in_schedule (timers s).

Definition is_test_signal_toast (t : Toast) : bool :=
  match t with
  | ToastTestSignalSent | ToastTestSignalError => true
  | _ => false
  end.

(** The page in a browser that refuses the socket URL: never connected, no
    timer, only mocks, and no toast but those of the test-signal button. *)
Definition dead (s : State) : Prop :=
  isConnected s = false ∧ timers s = [] ∧
  Forall (fun o => is_mock o = true) (sockets s) ∧
  Forall (fun t => is_test_signal_toast t = true) (toasts s).



End Page.

Import JS SubscriptionUtils Page.

Local Open Scope list_scope.

(** * Feature gating *)

Lemma tier_is_false (t : Tier) (lit : string) :
  t ≠ Some lit → tier_is t lit = false.
Proof.
  destruct t as [name|]; simpl; [|done].
  intros Hne. apply String.eqb_neq. congruence.
Qed.

Lemma getFeatureAccess_cases (t : Tier) :
  getFeatureAccess t = SUBSCRIPTION_FEATURES_elite ∨
  getFeatureAccess t = SUBSCRIPTION_FEATURES_pro ∨
  getFeatureAccess t = SUBSCRIPTION_FEATURES_none.
Proof.
  unfold getFeatureAccess.
  destruct (tier_is t "elite"); [by left|].
  destruct (tier_is t "pro"); [by right; left | by right; right].
Qed.

(** C10: a tier other than "elite" and "pro" (null included) gets the
    [none] record, so [hasAccess] is false for every feature and both
    limits are 0; [adminAccess] is refused to every tier. *)
Theorem unpaid_tier_has_no_access (t : Tier) :
  (t ≠ Some "elite" → t ≠ Some "pro" →
     getFeatureAccess t = SUBSCRIPTION_FEATURES_none ∧
     (∀ f : FeatureKey, hasAccess t f = false) ∧
     maxTickers (getFeatureAccess t) = 0 ∧
     maxSignalsPerMonth (getFeatureAccess t) = 0) ∧
  hasAccess t k_adminAccess = false.
Proof.
  split.
  - intros Helite Hpro.
    assert (getFeatureAccess t = SUBSCRIPTION_FEATURES_none) as Hnone.
    { unfold getFeatureAccess.
      by rewrite (tier_is_false _ _ Helite), (tier_is_false _ _ Hpro). }
    split; [done|]. unfold hasAccess. rewrite Hnone.
    split; [by intros []|done].
  - unfold hasAccess.
    by destruct (getFeatureAccess_cases t) as [-> | [-> | ->]].
Qed.

Lemma unpaid_tier_has_no_access_basic :
  getFeatureAccess (Some "basic") = SUBSCRIPTION_FEATURES_none ∧
  hasAccess (Some "basic") k_liveStreaming = false ∧
  hasAccess None k_basicSignals = false ∧
  hasAccess (Some "elite") k_adminAccess = false.
Proof.
  pose proof (unpaid_tier_has_no_access (Some "basic")) as [Hbasic _].
  destruct Hbasic as (Hrec & Hall & _); [discriminate | discriminate |].
  pose proof (unpaid_tier_has_no_access None) as [Hnull _].
  destruct Hnull as (_ & Hnull & _); [discriminate | discriminate |].
  pose proof (unpaid_tier_has_no_access (Some "elite")) as [_ Hadmin].
  split; [exact Hrec|]. split; [apply Hall|]. split; [apply Hnull|].
  exact Hadmin.
Defined.

(** The paid tiers do differ from [none], so the gate is not vacuous. *)
Example elite_has_liveStreaming :
  hasAccess (Some "elite") k_liveStreaming = true ∧
  hasAccess (Some "pro") k_whiteLabel = false ∧
  hasAccess (Some "elite") k_maxTickers = true.
Proof. done. Qed.

(** * The signal buffer *)

Section SignalBuffer.
Context {A : Type}.
Implicit Types (signal : A) (prev buffer signals : list A).

Lemma prepend_signal_length signal prev :
  length (prepend_signal signal prev) = S (min 49 (length prev)).
Proof. unfold prepend_signal. simpl. by rewrite length_take. Qed.

Lemma prepend_signal_bound signal prev :
  (length (prepend_signal signal prev) ≤ 50)%nat.
Proof. rewrite prepend_signal_length. lia. Qed.

Lemma push_all_snoc signals signal buffer :
  push_all (signals ++ [signal]) buffer =
  prepend_signal signal (push_all signals buffer).
Proof. unfold push_all. by rewrite foldl_app. Qed.

(** Pushing onto a buffer that respects the bound keeps the bound. *)
Lemma push_all_bound signals buffer :
  (length buffer ≤ 50)%nat → (length (push_all signals buffer) ≤ 50)%nat.
Proof.
  induction signals as [|signal signals IH] using rev_ind; [done|].
  intros _. rewrite push_all_snoc. apply prepend_signal_bound.
Qed.

(** From the empty buffer, the content is the last 50 signals, newest
    first. *)
Lemma push_all_newest_first signals :
  push_all signals [] = take 50 (reverse signals).
Proof.
  induction signals as [|signal signals IH] using rev_ind; [done|].
  rewrite push_all_snoc, IH, reverse_snoc. unfold prepend_signal. simpl.
  f_equal. rewrite take_take. f_equal.
Qed.

End SignalBuffer.

(** C1: after any sequence of pushes the buffer holds at most 50 signals
    and its element 0 is the signal pushed last; after 51 distinct pushes it
    holds exactly 50, the first-pushed one is gone and the 51st is at
    index 0. *)
Theorem signal_buffer_bound {A : Type} (signals : list A) :
  let buffer := push_all signals [] in
  (length buffer ≤ 50)%nat ∧
  buffer !! 0%nat = last signals ∧
  (length signals = 51%nat → NoDup signals →
     length buffer = 50%nat ∧
     buffer !! 0%nat = signals !! 50%nat ∧
     ∀ first, signals !! 0%nat = Some first → first ∉ buffer).
Proof.
  intros buffer.
  assert (buffer !! 0%nat = last signals) as Hnewest.
  { unfold buffer. rewrite push_all_newest_first, lookup_take_lt by lia.
    by rewrite <- head_lookup, head_reverse. }
  split; [by apply push_all_bound; simpl; lia|].
  split; [done|].
  intros Hlen Hdistinct.
  destruct signals as [|first rest]; [done|].
  assert (buffer = reverse rest) as Hbuffer.
  { unfold buffer. rewrite push_all_newest_first, reverse_cons.
    apply take_app_length'. rewrite length_reverse. simpl in Hlen. lia. }
  split; [|split].
  - rewrite Hbuffer, length_reverse. simpl in Hlen. lia.
  - rewrite Hnewest, last_lookup, Hlen. done.
  - intros first' [= <-]. rewrite Hbuffer, elem_of_reverse.
    by apply NoDup_cons in Hdistinct as [Hfresh _].
Qed.

(** The scenario of the specification: ids 1 to 51 pushed in order. *)
Lemma signal_buffer_bound_51 :
  let signals := seq 1 51 in
  let buffer := push_all signals [] in
  length buffer = 50%nat ∧ buffer !! 0%nat = Some 51%nat ∧ 1%nat ∉ buffer.
Proof.
  intros signals buffer.
  destruct (signal_buffer_bound signals) as (_ & _ & Hfull).
  destruct Hfull as (Hlen & Hnewest & Hevicted);
    [reflexivity | apply NoDup_seq |].
  split; [exact Hlen|]. split; [exact Hnewest|].
  by apply Hevicted.
Defined.

(** * The test-signal button and the status query *)

(** C9: [sendTestSignal] records exactly one call, a POST to the
    test-signal endpoint for BTCUSDT whose direction is "buy" when
    [Math.random()] exceeds 0.5 and "sell" otherwise; its only other output
    is one toast, "Test Signal Sent" or "Error"; connection flag, retry
    counter, buffer, socket reference, sockets and timers are untouched and
    nothing is thrown. *)
Theorem sendTestSignal_frame (random : Q) (ok : bool) (s : State) :
  ∃ s', sendTestSignal random ok s = Ok tt s' ∧
    apiCalls s' = apiCalls s ++
      [{| api_url := "/api/admin/live-streaming/test";
          api_method := Some "POST";
          api_body := Some (VObj
            [("symbol", VStr "BTCUSDT");
             ("signalType",
              VStr (if Qlt_le_dec (1 # 2) random then "buy" else "sell"))]) |}] ∧
    toasts s' = toasts s ++
      [if ok then ToastTestSignalSent else ToastTestSignalError] ∧
    isConnected s' = isConnected s ∧
    connectionAttempts s' = connectionAttempts s ∧
    liveSignals s' = liveSignals s ∧
    isStreaming s' = isStreaming s ∧
    wsRef s' = wsRef s ∧ sockets s' = sockets s ∧ timers s' = timers s ∧
    uncaught s' = uncaught s.
Proof. destruct ok; eexists; (split; [reflexivity|done]). Qed.

(** Both toasts of [sendTestSignal] are ordinary toasts: the success one has
    the default variant, the failure one the destructive variant. *)
Example sendTestSignal_toasts :
  toast_title ToastTestSignalSent = Literal "Test Signal Sent" ∧
  toast_variant ToastTestSignalSent = variant_default ∧
  toast_title ToastTestSignalError = Literal "Error" ∧
  toast_variant ToastTestSignalError = variant_destructive.
Proof. done. Qed.

(** In the event loop the two halves are separate turns: the click issues
    the request, the settled promise shows the toast. *)
Lemma sendTestSignal_events (B : Browser) (random : Q) (ok : bool)
    (s : State) :
  ∃ s', sendTestSignal random ok s = Ok tt s' ∧
    app_run B [ClickSendTestSignal random; TestSignalSettled ok] s = Some s'.
Proof. destruct ok; by eexists. Qed.

Example sendTestSignal_directions :
  (if Qlt_le_dec (1 # 2) (3 # 4) then "buy" else "sell") = "buy" ∧
  (if Qlt_le_dec (1 # 2) (1 # 2) then "buy" else "sell") = "sell".
Proof. done. Qed.






(** * Reasoning about callbacks *)

Lemma total_ret {A : Type} (a : A) : total (mret a).
Proof. intros s. by eexists _, _. Qed.

Lemma total_modify (f : State → State) : total (modify f).
Proof. intros s. by eexists _, _. Qed.

Lemma total_bind {A C : Type} (m : M A) (f : A → M C) :
  total m → (∀ a, total (f a)) → total (m ≫= f).
Proof.
  intros Hm Hf s. unfold mbind, M_bind.
  destruct (Hm s) as (a & s' & ->). apply Hf.
Qed.

(** A [try] whose handler returns, returns. *)
Lemma total_try_catch {A : Type} (body : M A) (handler : exn → M A) :
  (∀ e, total (handler e)) → total (try_catch body handler).
Proof.
  intros Hhandler s. unfold try_catch.
  destruct (body s) as [a s'|e s']; [by eexists _, _ | apply Hhandler].
Qed.

Lemma total_if {A : Type} (b : bool) (m1 m2 : M A) :
  total m1 → total m2 → total (if b then m1 else m2).
Proof. by destruct b. Qed.

Section Preservation.
Variable P : State → Prop.

Lemma keeps_ret {A : Type} (a : A) : keeps P (mret a).
Proof. by intros s Hs. Qed.

Lemma keeps_throw {A : Type} (e : exn) : keeps P (throw (A := A) e).
Proof. by intros s Hs. Qed.

Lemma keeps_lift {A : Type} (x : exn + A) : keeps P (lift x).
Proof. destruct x; [apply keeps_throw | apply keeps_ret]. Qed.

Lemma keeps_bind {A C : Type} (m : M A) (f : A → M C) :
  keeps P m → (∀ a, keeps P (f a)) → keeps P (m ≫= f).
Proof.
  intros Hm Hf s Hs. unfold mbind, M_bind. specialize (Hm s Hs).
  destruct (m s) as [a s'|e s']; [by apply Hf | done].
Qed.

Lemma keeps_try_catch {A : Type} (body : M A) (handler : exn → M A) :
  keeps P body → (∀ e, keeps P (handler e)) →
  keeps P (try_catch body handler).
Proof.
  intros Hbody Hhandler s Hs. unfold try_catch. specialize (Hbody s Hs).
  destruct (body s) as [a s'|e s']; [done | by apply Hhandler].
Qed.

Lemma keeps_modify (f : State → State) :
  (∀ s, P s → P (f s)) → keeps P (modify f).
Proof. intros Hf s Hs. by apply Hf. Qed.

Lemma keeps_if {A : Type} (b : bool) (m1 m2 : M A) :
  keeps P m1 → keeps P m2 → keeps P (if b then m1 else m2).
Proof. by destruct b. Qed.

(** A callback that returns and keeps [P] leaves a state with [P]. *)
Lemma keeps_dispatch (m : M unit) (s : State) :
  total m → keeps P m → P s → P (dispatch m s).
Proof.
  intros Htotal Hkeeps Hs. unfold dispatch. specialize (Hkeeps s Hs).
  destruct (Htotal s) as (a & s' & Hrun). by rewrite Hrun in *.
Qed.

End Preservation.

Ltac total_step :=
  lazymatch goal with
  | |- total (mret _) => apply total_ret
  | |- total (modify _) => apply total_modify
  | |- total (_ ≫= _) => apply total_bind; [|intros ?]
  | |- total (try_catch _ _) => apply total_try_catch; intros ?
  | |- total (if _ then _ else _) => apply total_if
  | |- total (match ?x with _ => _ end) => destruct x
  end.

Ltac keeps_healthy_modify :=
  apply keeps_modify; unfold healthy; cbn -[prepend_signal];
  intros ? (? & ? & ?); split; [assumption|]; split;
  [ first [assumption | apply prepend_signal_bound]
  | first [assumption
          | rewrite elem_of_app, list_elem_of_singleton; intros [?|?];
            [contradiction | discriminate]] ].

Ltac keeps_step :=
  lazymatch goal with
  | |- keeps _ (mret _) => apply keeps_ret
  | |- keeps _ (throw _) => apply keeps_throw
  | |- keeps _ (lift _) => apply keeps_lift
  | |- keeps _ (_ ≫= _) => apply keeps_bind; [|intros ?]
  | |- keeps _ (try_catch _ _) => apply keeps_try_catch; [|intros ?]
  | |- keeps _ (modify _) => keeps_healthy_modify
  | |- keeps _ (if _ then _ else _) => apply keeps_if
  | |- keeps _ (match ?x with _ => _ end) => destruct x
  end.

Ltac unfold_effects :=
  unfold onopen, onclose, onerror, onmessage, reconnect_callback, effect,
    effect_cleanup, toggleStreaming, queryFn, sendTestSignal_call,
    sendTestSignal_resume, JSON_parse, toUpperCase_receiver, setIsConnected,
    setIsStreaming, setConnectionAttempts, setLiveSignals, set_wsRef, toast,
    console_log, console_warn, console_error, apiRequest, setTimeout.

Ltac page_unfold :=
  unfold_effects;
  unfold connectWebSocket, disconnectWebSocket, WebSocket_override,
    OriginalWebSocket, new_URL, new_socket, update_socket, try_catch, throw,
    lift, get, modify, mbind, M_bind, mret, M_ret.

(** Runs a closed trace: the final state is computed, what is said about
    it is left as the goal. *)
Ltac run_trace := eexists; split; [vm_compute; reflexivity|].

Lemma lookup_end {A : Type} (l : list A) (x : A) (n : nat) :
  n = length l → (l ++ [x]) !! n = Some x.
Proof. apply list_lookup_middle. Qed.

Lemma insert_end {A : Type} (l : list A) (x y : A) (n : nat) :
  n = length l → <[n := y]> (l ++ [x]) = l ++ [y].
Proof.
  intros ->. rewrite insert_app_r_alt by lia. by rewrite Nat.sub_diag.
Qed.

Lemma run_app (B : Browser) (W : string → M nat) (evs1 evs2 : list Event)
    (s : State) :
  run B W (evs1 ++ evs2) s = run B W evs1 s ≫= run B W evs2.
Proof.
  revert s. induction evs1 as [|ev evs1 IH]; intros s; simpl; [done|].
  destruct (step B W ev s); simpl; [apply IH|done].
Qed.

(** Mounting runs the effect with the stream off, which changes nothing. *)
Lemma mounted_initial (B : Browser) : mounted B = initial.
Proof. reflexivity. Qed.

(** * The connection supervisor *)

(** ** What each callback does to the state *)

Lemma onopen_effect (s : State) :
  onopen s =
    Ok tt (with_toasts (toasts s ++ [ToastConnected])
             (with_connectionAttempts 0 (with_isConnected true s))).
Proof. reflexivity. Qed.

(** The delay and the decision to retry come from the render [r] of the
    closure; the live [connectionAttempts] of [s] plays no part. *)
Lemma onclose_effect (r : Render) (s : State) :
  onclose r s =
    Ok tt (if r_isStreaming r && (r_connectionAttempts r <? 5)%nat
           then with_timers (timers s ++ [reconnect_timer r])
                  (with_isConnected false s)
           else with_isConnected false s).
Proof.
  page_unfold.
  by destruct (r_isStreaming r && (r_connectionAttempts r <? 5)%nat).
Qed.

Lemma disconnectWebSocket_effect (s : State) :
  disconnectWebSocket s =
    Ok tt (with_isConnected false
             match wsRef s with
             | Some ws =>
                 with_wsRef None
                   match sockets s !! ws with
                   | Some o =>
                       with_sockets (<[ws := close_socket o]> (sockets s)) s
                   | None => s
                   end
             | None => s
             end).
Proof.
  page_unfold. destruct (wsRef s) as [ws|]; [|done].
  by destruct (sockets s !! ws).
Qed.

Lemma WebSocket_override_accepts (B : Browser) (s : State) :
  accepts_socket_url B = true →
  WebSocket_override B (wsUrl B) s =
    Ok (length (sockets s))
       (with_sockets (sockets s ++ [Native (wsUrl B) CONNECTING None]) s).
Proof.
  unfold accepts_socket_url. intros [Hurl Hnative]%andb_true_iff.
  page_unfold. by rewrite Hurl, Hnative.
Qed.

Lemma WebSocket_override_refuses (B : Browser) (s : State) :
  accepts_socket_url B = false →
  WebSocket_override B (wsUrl B) s =
    Ok (length (sockets s))
       (with_sockets (sockets s ++ [Mock None])
          (with_console
             (console s ++
                [ConsoleWarn "Invalid WebSocket URL, skipping connection:"])
             s)).
Proof.
  unfold accepts_socket_url. intros Hrefused. page_unfold.
  destruct (URL_parses B (wsUrl B)); [|done].
  by destruct (native_accepts B (wsUrl B)).
Qed.

(** The override never throws: its [try] covers both [new URL] and the
    native constructor, and its handler only logs and allocates. *)
Lemma WebSocket_override_total (B : Browser) (url : string) :
  total (WebSocket_override B url).
Proof.
  unfold WebSocket_override, console_warn, new_socket.
  apply total_try_catch. intros e. apply total_bind; [apply total_modify|].
  intros _ s. by eexists _, _.
Qed.

(** Nor does [connectWebSocket], whatever constructor it is given. *)
Lemma connectWebSocket_total (B : Browser) (W : string → M nat) (r : Render) :
  total (connectWebSocket B W r).
Proof.
  unfold connectWebSocket, console_error, toast. repeat total_step.
Qed.

Lemma connectWebSocket_accepts (B : Browser) (r : Render) (s : State) :
  accepts_socket_url B = true →
  connectWebSocket B (WebSocket_override B) r s =
    Ok tt (with_sockets (sockets s ++ [Native (wsUrl B) CONNECTING (Some r)])
             (with_wsRef (Some (length (sockets s))) s)).
Proof.
  intros Haccepts. unfold connectWebSocket, try_catch, mbind, M_bind.
  rewrite WebSocket_override_accepts by done.
  unfold set_wsRef, update_socket, modify. cbn.
  rewrite lookup_end, insert_end by done. done.
Qed.

Lemma connectWebSocket_refuses (B : Browser) (r : Render) (s : State) :
  accepts_socket_url B = false →
  connectWebSocket B (WebSocket_override B) r s =
    Ok tt (with_sockets (sockets s ++ [Mock (Some r)])
             (with_wsRef (Some (length (sockets s)))
                (with_console
                   (console s ++
                      [ConsoleWarn "Invalid WebSocket URL, skipping connection:"])
                   s))).
Proof.
  intros Hrefused. unfold connectWebSocket, try_catch, mbind, M_bind.
  rewrite WebSocket_override_refuses by done.
  unfold set_wsRef, update_socket, modify. cbn.
  rewrite lookup_end, insert_end by done. done.
Qed.

(** ** What each event does to the state *)

Lemma step_WsOpen (B : Browser) (W : string → M nat) (s : State) (ws : nat)
    (url : string) (r : Render) :
  sockets s !! ws = Some (Native url CONNECTING (Some r)) →
  step B W (WsOpen ws) s =
    Some (with_toasts (toasts s ++ [ToastConnected])
            (with_connectionAttempts 0
               (with_isConnected true
                  (with_sockets (<[ws := Native url OPEN (Some r)]> (sockets s))
                     s)))).
Proof.
  intros Hws. unfold step. rewrite Hws.
  unfold dispatch, mbind, M_bind, update_socket, modify. rewrite Hws.
  by rewrite onopen_effect.
Qed.

Lemma step_WsError (B : Browser) (W : string → M nat) (s : State) (ws : nat)
    (url : string) (rs : ReadyState) (r : Render) :
  sockets s !! ws = Some (Native url rs (Some r)) → rs ≠ CLOSED →
  step B W (WsError ws) s =
    Some (with_toasts (toasts s ++ [ToastConnectionError])
            (with_console (console s ++ [ConsoleError "WebSocket error:"]) s)).
Proof. intros Hws Hrs. unfold step. rewrite Hws. by destruct rs. Qed.

Lemma step_WsClose (B : Browser) (W : string → M nat) (s : State) (ws : nat)
    (url : string) (rs : ReadyState) (r : Render) :
  sockets s !! ws = Some (Native url rs (Some r)) → rs ≠ CLOSED →
  step B W (WsClose ws) s =
    Some (let s1 :=
            with_isConnected false
              (with_sockets (<[ws := Native url CLOSED (Some r)]> (sockets s)) s) in
          if r_isStreaming r && (r_connectionAttempts r <? 5)%nat
          then with_timers (timers s ++ [reconnect_timer r]) s1
          else s1).
Proof.
  intros Hws Hrs. unfold step. rewrite Hws.
  unfold dispatch, mbind, M_bind, update_socket, modify. rewrite Hws.
  rewrite onclose_effect. cbn.
  by destruct rs, (r_isStreaming r && (r_connectionAttempts r <? 5)%nat).
Qed.

Lemma step_TimerFired (B : Browser) (s : State) (timer : nat) (t : Timer) :
  accepts_socket_url B = true →
  timers s !! timer = Some t → tm_pending t = true →
  step B (WebSocket_override B) (TimerFired timer) s =
    Some (with_sockets
            (sockets s ++ [Native (wsUrl B) CONNECTING (Some (tm_render t))])
            (with_wsRef (Some (length (sockets s)))
               (with_connectionAttempts (S (connectionAttempts s))
                  (with_timers (<[timer := clear_pending t]> (timers s)) s)))).
Proof.
  intros Haccepts Htimer Hpending. unfold step. rewrite Htimer, Hpending.
  unfold dispatch, reconnect_callback, mbind, M_bind, setConnectionAttempts,
    modify.
  rewrite connectWebSocket_accepts by done. cbn. by rewrite Nat.add_1_r.
Qed.

(** The mock never calls back: no event of a mock socket can occur. *)
Lemma mock_is_inert (B : Browser) (W : string → M nat) (s : State) (ws : nat)
    (h : option Render) (event_data : option value) :
  sockets s !! ws = Some (Mock h) →
  step B W (WsOpen ws) s = None ∧ step B W (WsClose ws) s = None ∧
  step B W (WsError ws) s = None ∧
  step B W (WsMessage ws event_data) s = None.
Proof. intros Hws. unfold step. by rewrite Hws. Qed.

(** ** The reconnect loop against an unreachable server *)

Lemma retrying_next (n : nat) :
  app_run localhost [WsError n; WsClose n; TimerFired n] (retrying n) =
    Some (retrying (S n)).
Proof.
  unfold app_run. cbn [run].
  rewrite (step_WsError _ _ _ n "ws://localhost:5000/ws" CONNECTING first_on);
    [|by apply lookup_end; rewrite length_replicate|done].
  rewrite (step_WsClose _ _ _ n "ws://localhost:5000/ws" CONNECTING first_on);
    [|by apply lookup_end; rewrite length_replicate|done].
  cbn -[replicate step].
  rewrite (step_TimerFired _ _ n (reconnect_timer first_on));
    [|done|by apply lookup_end; rewrite length_replicate|done].
  cbn -[replicate].
  rewrite !insert_end by (by rewrite length_replicate).
  rewrite length_app, length_replicate. cbn -[replicate].
  rewrite Nat.add_1_r. unfold retrying.
  by rewrite !replicate_S_end.
Qed.

Lemma failed_session_retrying (n : nat) :
  app_run localhost (failed_session n) initial = Some (retrying n).
Proof.
  induction n as [|n IH]; [reflexivity|].
  unfold failed_session in *. cbn [failed_reconnects].
  unfold app_run in *. rewrite app_comm_cons, run_app, IH.
  apply retrying_next.
Qed.

Lemma pending_timers_snoc (fired : list Timer) (t : Timer) :
  Forall (λ t', tm_pending t' = false) fired → tm_pending t = true →
  filter (λ t', tm_pending t' = true) (fired ++ [t]) = [t].
Proof.
  intros Hfired Hpending.
  induction Hfired as [|t' fired Ht' _ IH]; simpl.
  - rewrite filter_cons_True by done. by rewrite filter_nil.
  - rewrite filter_cons_False by congruence. exact IH.
Qed.

(** C2, at the failing inputs: against an unreachable server every
    reconnect, the first as well as the hundredth, is scheduled after
    1000 ms, and after the close that follows the [n]-th reconnect one more
    timer is pending, whatever [n] is.  The handlers and the timer callback
    are closures of the render in which the stream was switched on; they
    keep reading its [connectionAttempts = 0] while the live counter
    reaches [n]. *)
Theorem reconnect_delay_never_grows (n : nat) :
  ∃ s,
    app_run localhost (failed_session n ++ [WsError n; WsClose n]) initial
      = Some s ∧
    connectionAttempts s = n ∧
    scheduled_delays s = replicate (S n) 1000 ∧
    pending_timers s = [reconnect_timer first_on].
Proof.
  unfold app_run. rewrite run_app.
  pose proof (failed_session_retrying n) as Hretrying.
  unfold app_run in Hretrying. rewrite Hretrying. cbn [mbind option_bind run].
  rewrite (step_WsError _ _ _ n "ws://localhost:5000/ws" CONNECTING first_on);
    [|by apply lookup_end; rewrite length_replicate|done].
  rewrite (step_WsClose _ _ _ n "ws://localhost:5000/ws" CONNECTING first_on);
    [|by apply lookup_end; rewrite length_replicate|done].
  eexists. split; [reflexivity|].
  unfold scheduled_delays, pending_timers. cbn -[replicate Z.pow Z.mul].
  split; [done|]. split.
  - by rewrite fmap_app, fmap_replicate, replicate_S_end.
  - apply pending_timers_snoc; [|done]. by apply Forall_replicate.
Qed.

Example second_reconnect_after_one_second :
  ∃ s, app_run localhost
         [ClickToggleStreaming; WsError 0; WsClose 0; TimerFired 0;
          WsError 1; WsClose 1] initial
       = Some s ∧
    connectionAttempts s = 1%nat ∧ scheduled_delays s = [1000; 1000].
Proof. run_trace. done. Qed.

Example seventh_reconnect_scheduled :
  ∃ s, app_run localhost (failed_session 6 ++ [WsError 6; WsClose 6]) initial
       = Some s ∧
    connectionAttempts s = 6%nat ∧
    tm_delay <$> pending_timers s = [1000].
Proof. run_trace. done. Qed.

(** What the closure would schedule if it saw [n]: [2 ^ n] seconds. *)
Lemma reconnect_timer_delay (n : nat) :
  tm_delay (reconnect_timer {| r_isStreaming := true;
                               r_connectionAttempts := n |})
  = 2 ^ Z.of_nat n * 1000.
Proof. reflexivity. Qed.

(** ** Giving up *)

(** C3, as the code has it: when a socket closes whose handlers belong to a
    render with [connectionAttempts >= 5], no timer is set, [isConnected]
    is false, and no toast of any kind is shown: giving up is silent. *)
Theorem close_after_budget_is_silent (B : Browser) (s : State) (ws : nat)
    (url : string) (rs : ReadyState) (r : Render) :
  sockets s !! ws = Some (Native url rs (Some r)) → rs ≠ CLOSED →
  (5 ≤ r_connectionAttempts r)%nat →
  ∃ s', app_step B (WsClose ws) s = Some s' ∧
    timers s' = timers s ∧ isConnected s' = false ∧
    toasts s' = toasts s ∧ connectionAttempts s' = connectionAttempts s ∧
    uncaught s' = uncaught s.
Proof.
  intros Hws Hrs Hspent. unfold app_step.
  rewrite (step_WsClose _ _ _ _ _ _ _ Hws Hrs).
  replace (r_connectionAttempts r <? 5)%nat with false
    by (symmetry; apply Nat.ltb_ge; lia).
  rewrite andb_false_r. by eexists.
Qed.

Lemma close_after_budget_is_silent_witness :
  app_run localhost restarted_after_5 initial = Some budget_spent ∧
  sockets budget_spent !! 6%nat =
    Some (Native "ws://localhost:5000/ws" CONNECTING
            (Some {| r_isStreaming := true; r_connectionAttempts := 5 |})) ∧
  ∃ s', app_step localhost (WsClose 6) budget_spent = Some s' ∧
    timers s' = timers budget_spent ∧ isConnected s' = false ∧
    toasts s' = toasts budget_spent.
Proof.
  split; [vm_compute; reflexivity|]. split; [reflexivity|].
  destruct (close_after_budget_is_silent localhost budget_spent 6
              "ws://localhost:5000/ws" CONNECTING
              {| r_isStreaming := true; r_connectionAttempts := 5 |})
    as (s' & Hstep & Htimers & Hconn & Htoasts & _);
    [reflexivity | discriminate | simpl; lia |].
  exists s'. split; [exact Hstep|]. split; [exact Htimers|].
  split; [exact Hconn | exact Htoasts].
Defined.

(** C3 as stated fails: after five reconnects that never opened, with the
    live counter at 5, the next close sets a sixth timer, and no
    "Connection Failed" toast has been shown. *)
Lemma retry_budget_not_enforced :
  ∃ s,
    app_run localhost (failed_session 5 ++ [WsError 5; WsClose 5]) initial
      = Some s ∧
    connectionAttempts s = 5%nat ∧
    isConnected s = false ∧
    pending_timers s = [reconnect_timer first_on] ∧
    connection_failed_toasts s = 0%nat.
Proof. run_trace. done. Qed.

(** The same silence without the stale render: in [budget_spent] the
    handlers do see 5, the close sets no timer, and the only toasts are the
    "Connection Error" ones of the error events. *)
Example giving_up_shows_nothing :
  ∃ s, app_run localhost (restarted_after_5 ++ [WsError 6; WsClose 6]) initial
       = Some s ∧
    pending_timers s = [] ∧ connection_failed_toasts s = 0%nat ∧
    toasts s = replicate 6 ToastConnectionError.
Proof. run_trace. done. Qed.

(** ** A successful open *)

(** The open itself does what C6 says: connected, counter at 0, one
    "Connected" toast; the render stored with the socket is not touched. *)
Lemma open_resets_counter (B : Browser) (s : State) (ws : nat) (url : string)
    (r : Render) :
  sockets s !! ws = Some (Native url CONNECTING (Some r)) →
  ∃ s', app_step B (WsOpen ws) s = Some s' ∧
    isConnected s' = true ∧ connectionAttempts s' = 0%nat ∧
    toasts s' = toasts s ++ [ToastConnected] ∧
    sockets s' !! ws = Some (Native url OPEN (Some r)).
Proof.
  intros Hws. unfold app_step. rewrite (step_WsOpen _ _ _ _ _ _ Hws).
  eexists. split; [reflexivity|]. cbn. repeat split.
  apply list_lookup_insert_eq. by eapply lookup_lt_Some.
Qed.

(** C6, at the failing input: the stream is restarted after one failed
    reconnect, so the new render holds [connectionAttempts = 1]; the socket
    opens and the live counter goes back to 0; when that socket closes, the
    reconnect is scheduled after 2000 ms, not 1000 ms. *)
Theorem reopened_socket_keeps_old_delay :
  ∃ s_open s_closed,
    app_run localhost reopened_after_1 initial = Some s_open ∧
    isConnected s_open = true ∧ connectionAttempts s_open = 0%nat ∧
    app_step localhost (WsClose 2) s_open = Some s_closed ∧
    connectionAttempts s_closed = 0%nat ∧
    tm_delay <$> pending_timers s_closed = [2000].
Proof.
  eexists. eexists. split; [vm_compute; reflexivity|].
  split; [reflexivity|]. split; [reflexivity|].
  split; [vm_compute; reflexivity|]. done.
Qed.

(** ** Stopping *)

Lemma close_socket_closes (url : string) (rs : ReadyState) (h : option Render) :
  ∃ rs', close_socket (Native url rs h) = Native url rs' h ∧
    (rs' = CLOSING ∨ rs' = CLOSED).
Proof. destruct rs; simpl; eauto. Qed.

(** C4, as the code has it: [disconnectWebSocket] twice gives the state
    that once gives; after it [isConnected] is false and [wsRef] is empty,
    and a native socket that [wsRef] held is closing or closed.  Timers are
    left exactly as they were: the page keeps no timer handle and never
    calls [clearTimeout]. *)
Theorem disconnectWebSocket_idempotent (s : State) :
  let once := dispatch disconnectWebSocket s in
  dispatch disconnectWebSocket once = once ∧
  isConnected once = false ∧ wsRef once = None ∧
  timers once = timers s ∧ connectionAttempts once = connectionAttempts s ∧
  toasts once = toasts s ∧ uncaught once = uncaught s ∧
  (∀ ws url rs h,
     wsRef s = Some ws → sockets s !! ws = Some (Native url rs h) →
     ∃ rs', sockets once !! ws = Some (Native url rs' h) ∧
       (rs' = CLOSING ∨ rs' = CLOSED)).
Proof.
  intros once. unfold once, dispatch. rewrite !disconnectWebSocket_effect.
  destruct (wsRef s) as [ws|] eqn:Href;
    [destruct (sockets s !! ws) as [o|] eqn:Hws|]; cbn; rewrite ?Href;
    (do 7 (split; [reflexivity|])).
  - intros ws' url rs h [= <-] Hws'. rewrite Hws in Hws'. simplify_eq.
    destruct (close_socket_closes url rs h) as (rs' & -> & Hrs').
    exists rs'. split; [|done].
    apply list_lookup_insert_eq. by eapply lookup_lt_Some.
  - intros ws' url rs h [= <-] Hws'. by rewrite Hws in Hws'.
  - by intros ws' url rs h [=].
Qed.

Lemma disconnectWebSocket_idempotent_witness :
  let once := dispatch disconnectWebSocket (retrying 0) in
  dispatch disconnectWebSocket once = once ∧
  isConnected once = false ∧
  sockets once !! 0%nat =
    Some (Native "ws://localhost:5000/ws" CLOSING (Some first_on)).
Proof.
  intros once.
  destruct (disconnectWebSocket_idempotent (retrying 0))
    as (Hidem & Hconn & _ & _ & _ & _ & _ & Hclosed).
  split; [exact Hidem|]. split; [exact Hconn|].
  destruct (Hclosed 0%nat "ws://localhost:5000/ws" CONNECTING (Some first_on))
    as (rs' & Hws & _); [reflexivity | reflexivity |].
  reflexivity.
Defined.

(** C4 as stated fails: a reconnect timer that is pending when the stream is
    stopped is still pending after [disconnectWebSocket], called once or
    twice. *)
Lemma stop_leaves_timer_pending :
  ∃ s, app_run localhost [ClickToggleStreaming; WsError 0; WsClose 0] initial
       = Some s ∧
    pending_timers s = [reconnect_timer first_on] ∧
    let stopped :=
      dispatch disconnectWebSocket (dispatch disconnectWebSocket s) in
    isConnected stopped = false ∧
    pending_timers stopped = [reconnect_timer first_on].
Proof. run_trace. done. Qed.

(** When that timer fires the page connects again although the stream is
    off. *)
Example stopped_stream_reconnects :
  ∃ s, app_run localhost
         [ClickToggleStreaming; WsError 0; WsClose 0; ClickToggleStreaming;
          TimerFired 0; WsOpen 1] initial = Some s ∧
    isStreaming s = false ∧ isConnected s = true ∧ wsRef s = Some 1%nat.
Proof. run_trace. done. Qed.

(** ** Inbound frames *)

(** C5: a frame that [JSON.parse] rejects, or whose [type] is neither
    "signal" nor "connection" (a missing [type], a non-object and [null]
    included), is handled: the step exists, no exception escapes, no toast
    is shown, and connection flag, buffer, retry counter, streaming flag,
    socket reference, sockets, timers and API calls are as before; only the
    console grows. *)
Theorem malformed_frame_is_ignored (B : Browser) (s : State) (ws : nat)
    (url : string) (r : Render) (event_data : option value) :
  sockets s !! ws = Some (Native url OPEN (Some r)) →
  recognized_frame event_data = false →
  ∃ s', app_step B (WsMessage ws event_data) s = Some s' ∧
    isConnected s' = isConnected s ∧
    liveSignals s' = liveSignals s ∧
    connectionAttempts s' = connectionAttempts s ∧
    toasts s' = toasts s ∧
    uncaught s' = uncaught s ∧
    isStreaming s' = isStreaming s ∧ wsRef s' = wsRef s ∧
    sockets s' = sockets s ∧ timers s' = timers s ∧
    apiCalls s' = apiCalls s.
Proof.
  intros Hws Hrec. unfold app_step, step. rewrite Hws.
  unfold dispatch, onmessage, try_catch, mbind, M_bind.
  destruct event_data as [message|]; [|by eexists].
  cbn [JSON_parse mret M_ret console_log modify].
  unfold recognized_frame in Hrec.
  destruct (get_prop message "type") as [e|type]; [by eexists|].
  apply orb_false_iff in Hrec as [Hsignal Hconnection].
  cbn. rewrite Hsignal, Hconnection. by eexists.
Qed.

Lemma malformed_frame_is_ignored_witness :
  app_run localhost [ClickToggleStreaming; WsOpen 0] initial
    = Some streaming_open ∧
  (∃ s', app_step localhost (WsMessage 0 None) streaming_open = Some s' ∧
     isConnected s' = true ∧ liveSignals s' = [] ∧
     toasts s' = [ToastConnected] ∧ uncaught s' = []) ∧
  (∃ s', app_step localhost
           (WsMessage 0 (Some (VObj [("type", VStr "ping")]))) streaming_open
         = Some s' ∧
     isConnected s' = true ∧ liveSignals s' = [] ∧
     toasts s' = [ToastConnected] ∧ uncaught s' = []).
Proof.
  split; [vm_compute; reflexivity|]. split.
  - destruct (malformed_frame_is_ignored localhost streaming_open 0
                "ws://localhost:5000/ws" first_on None)
      as (s' & Hstep & Hconn & Hbuf & _ & Htoasts & Huncaught & _);
      [reflexivity | reflexivity |].
    exists s'. split; [exact Hstep|]. split; [exact Hconn|].
    split; [exact Hbuf|]. split; [exact Htoasts | exact Huncaught].
  - destruct (malformed_frame_is_ignored localhost streaming_open 0
                "ws://localhost:5000/ws" first_on
                (Some (VObj [("type", VStr "ping")])))
      as (s' & Hstep & Hconn & Hbuf & _ & Htoasts & Huncaught & _);
      [reflexivity | reflexivity |].
    exists s'. split; [exact Hstep|]. split; [exact Hconn|].
    split; [exact Hbuf|]. split; [exact Htoasts | exact Huncaught].
Defined.


(** What counts as unrecognised: [null], a bare number, an object without
    [type]; what does not: the two tags. *)
Example recognized_frame_cases :
  recognized_frame None = false ∧
  recognized_frame (Some VNull) = false ∧
  recognized_frame (Some (VNum (S754_zero false))) = false ∧
  recognized_frame (Some (VObj [("data", VNull)])) = false ∧
  recognized_frame (Some (VObj [("type", VStr "signal")])) = true ∧
  recognized_frame (Some (VObj [("type", VStr "connection")])) = true.
Proof. done. Qed.

(** A well-formed signal frame is stored and announced. *)
Example signal_frame_is_stored :
  let signal := VObj [("id", VStr "1"); ("symbol", VStr "BTCUSDT");
                      ("signalType", VStr "buy")] in
  ∃ s', app_step localhost
          (WsMessage 0 (Some (VObj [("type", VStr "signal"); ("data", signal)])))
          streaming_open = Some s' ∧
    liveSignals s' = [signal] ∧
    toasts s' = [ToastConnected; ToastSignal "buy" (VStr "BTCUSDT") VUndefined] ∧
    uncaught s' = [].
Proof. intros signal. run_trace. done. Qed.

(** A frame tagged "signal" is outside C5: the handler stores its [data]
    before it looks inside, so a payload without [signalType] ends up in the
    buffer; the exception is caught and no toast is shown. *)
Example signal_frame_without_payload :
  ∃ s', app_step localhost
          (WsMessage 0 (Some (VObj [("type", VStr "signal")])))
          streaming_open = Some s' ∧
    liveSignals s' = [VUndefined] ∧ toasts s' = [ToastConnected] ∧
    uncaught s' = [].
Proof. run_trace. done. Qed.

(** ** Failure to construct the socket *)

(** C8, as the code has it: [connectWebSocket] lets no exception escape,
    whatever constructor is installed, and if the constructor throws, its
    [catch] logs an error and shows "Connection Failed".  In the application
    the constructor is the override of main.tsx, which never throws: when
    the URL or the native constructor fails, the override logs a warning and
    returns the inert mock, so [connectWebSocket] stores the mock in
    [wsRef], shows no toast, and leaves [isConnected] as it was. *)
Theorem construction_failure_is_swallowed (B : Browser) (r : Render)
    (s : State) :
  (∀ W : string → M nat, ∃ s', connectWebSocket B W r s = Ok tt s') ∧
  (∀ (W : string → M nat) e s1, W (wsUrl B) s = Throw e s1 →
     connectWebSocket B W r s =
       Ok tt (with_toasts (toasts s1 ++ [ToastConnectionFailed])
                (with_console
                   (console s1 ++
                      [ConsoleError "Failed to create WebSocket connection:"])
                   s1))) ∧
  (∀ url s0, ∃ ws s', WebSocket_override B url s0 = Ok ws s') ∧
  (accepts_socket_url B = false →
     ∃ s', connectWebSocket B (WebSocket_override B) r s = Ok tt s' ∧
       toasts s' = toasts s ∧
       console s' = console s ++
         [ConsoleWarn "Invalid WebSocket URL, skipping connection:"] ∧
       sockets s' = sockets s ++ [Mock (Some r)] ∧
       wsRef s' = Some (length (sockets s)) ∧
       isConnected s' = isConnected s ∧
       connectionAttempts s' = connectionAttempts s ∧
       timers s' = timers s ∧ uncaught s' = uncaught s).
Proof.
  split.
  { intros W. destruct (connectWebSocket_total B W r s) as ([] & s' & Hrun).
    by exists s'. }
  split.
  { intros W e s1 HW. unfold connectWebSocket, try_catch, mbind, M_bind.
    by rewrite HW. }
  split; [intros url s0; apply WebSocket_override_total|].
  intros Hrefused. rewrite connectWebSocket_refuses by done. by eexists.
Qed.

Lemma construction_failure_is_swallowed_witness :
  accepts_socket_url refusing = false ∧
  ∃ s', connectWebSocket refusing (WebSocket_override refusing) first_on
          (with_isStreaming true initial) = Ok tt s' ∧
    toasts s' = [] ∧ sockets s' = [Mock (Some first_on)] ∧
    wsRef s' = Some 0%nat ∧ isConnected s' = false.
Proof.
  split; [reflexivity|].
  destruct (construction_failure_is_swallowed refusing first_on
              (with_isStreaming true initial)) as (_ & _ & _ & Hswallowed).
  destruct Hswallowed
    as (s' & Hrun & Htoasts & _ & Hsockets & Href & Hconn & _);
    [reflexivity|].
  exists s'. split; [exact Hrun|]. split; [exact Htoasts|].
  split; [exact Hsockets|]. split; [exact Href | exact Hconn].
Defined.

(** C8 as stated fails: the stream is switched on in a browser that refuses
    the socket URL; the failure is logged as a warning and no
    "Connection Failed" toast, indeed no toast at all, is shown. *)
Lemma construction_failure_not_notified :
  ∃ s, app_run refusing [ClickToggleStreaming] initial = Some s ∧
    isStreaming s = true ∧
    sockets s = [Mock (Some first_on)] ∧
    console s = [ConsoleWarn "Invalid WebSocket URL, skipping connection:"] ∧
    connection_failed_toasts s = 0%nat ∧ toasts s = [].
Proof. run_trace. done. Qed.

(** Without the override the page's own [catch] would do what C8 says. *)
Example native_constructor_failure_is_notified :
  ∃ s, connectWebSocket refusing (OriginalWebSocket refusing) first_on initial
       = Ok tt s ∧
    toasts s = [ToastConnectionFailed] ∧ isConnected s = false ∧
    wsRef s = None.
Proof. by eexists. Qed.

(** ** What holds in every reachable state *)

Lemma connectWebSocket_healthy (B : Browser) (r : Render) :
  keeps healthy (connectWebSocket B (WebSocket_override B) r).
Proof.
  intros s Hs. destruct (accepts_socket_url B) eqn:Haccepts.
  - by rewrite connectWebSocket_accepts.
  - by rewrite connectWebSocket_refuses.
Qed.

Lemma disconnectWebSocket_total : total disconnectWebSocket.
Proof. intros s. rewrite disconnectWebSocket_effect. by eexists _, _. Qed.

Lemma disconnectWebSocket_healthy : keeps healthy disconnectWebSocket.
Proof.
  intros s Hs. rewrite disconnectWebSocket_effect.
  destruct (wsRef s) as [ws|]; [destruct (sockets s !! ws)|]; exact Hs.
Qed.

Lemma update_socket_healthy (ws : nat) (f : SocketObject → SocketObject) :
  keeps healthy (update_socket ws f).
Proof.
  apply keeps_modify. intros s Hs. by destruct (sockets s !! ws).
Qed.

Ltac callback :=
  lazymatch goal with
  | |- healthy (dispatch (effect _ _ _) _) =>
      apply keeps_dispatch;
      [ unfold effect; total_step;
        [apply connectWebSocket_total | apply disconnectWebSocket_total]
      | unfold effect; keeps_step;
        [apply connectWebSocket_healthy | apply disconnectWebSocket_healthy]
      | ]
  | |- healthy (dispatch effect_cleanup _) =>
      apply keeps_dispatch;
      [ apply disconnectWebSocket_total | apply disconnectWebSocket_healthy
      | ]
  | |- healthy (dispatch (reconnect_callback _ _ _) _) =>
      apply keeps_dispatch;
      [ unfold reconnect_callback, setConnectionAttempts; total_step;
        [total_step | apply connectWebSocket_total]
      | unfold reconnect_callback, setConnectionAttempts; keeps_step;
        [keeps_step | apply connectWebSocket_healthy]
      | ]
  | |- healthy (dispatch (update_socket _ _ ≫= _) _) =>
      apply keeps_dispatch;
      [ unfold update_socket; unfold_effects; repeat total_step
      | apply keeps_bind; [apply update_socket_healthy | intros ?];
        unfold_effects; repeat keeps_step
      | ]
  | |- healthy (dispatch _ _) =>
      apply keeps_dispatch;
      [ unfold_effects; repeat total_step
      | unfold_effects; repeat keeps_step
      | ]
  end.



(** * Further properties: tiers, messages, prices *)

Import UpgradeMessages.

(** X1: whatever a tier grants, elite grants too, and pro and elite differ
    in exactly one feature, [whiteLabel]. *)
Theorem elite_is_maximal (t : Tier) (f : FeatureKey) :
  (hasAccess t f = true → hasAccess (Some "elite") f = true) ∧
  (hasAccess (Some "pro") f ≠ hasAccess (Some "elite") f ↔ f = k_whiteLabel).
Proof.
  split.
  - unfold hasAccess at 1.
    destruct (getFeatureAccess_cases t) as [-> | [-> | ->]];
      by destruct f.
  - split; [by destruct f | by intros ->].
Qed.

Lemma elite_is_maximal_witness :
  hasAccess (Some "pro") k_apiAccess = true ∧
  hasAccess (Some "elite") k_apiAccess = true.
Proof.
  split; [reflexivity|].
  destruct (elite_is_maximal (Some "pro") k_apiAccess) as [Hmax _].
  apply Hmax. reflexivity.
Defined.

Lemma own_message_elite (feature text : string) :
  own_message upgradeMessages feature = Some text →
  String.prefix "Upgrade to Elite plan " text = true.
Proof.
  unfold upgradeMessages. cbn [own_message].
  repeat (case_match; [by intros [= <-]|]). done.
Qed.

(** X2: [getUpgradeMessage] answers every feature name of [FeatureAccess]
    with a message, and every message it can return, the fallback included,
    begins with "Upgrade to Elite plan"; a feature that has a message of its
    own is one that elite grants. *)
Theorem upgrade_message_names_elite (feature : string) (k : FeatureKey) :
  (∀ text, getUpgradeMessage feature = Message text →
     String.prefix "Upgrade to Elite plan " text = true) ∧
  (∃ text, getUpgradeMessage (key_name k) = Message text) ∧
  (getUpgradeMessage (key_name k) ≠ Message default_message →
     hasAccess (Some "elite") k = true).
Proof.
  split; [|split].
  - intros text. unfold getUpgradeMessage.
    destruct (own_message upgradeMessages feature) as [own|] eqn:Hown.
    + intros [= <-]. by eapply own_message_elite.
    + destruct (mem_string feature Object_prototype_members); [done|].
      by intros [= <-].
  - destruct k; by eexists.
  - by destruct k.
Qed.

Lemma upgrade_message_names_elite_witness :
  getUpgradeMessage "smsAlerts"
    = Message "Upgrade to Elite plan to enable SMS alerts" ∧
  hasAccess (Some "elite") k_smsAlerts = true ∧
  getUpgradeMessage "emailAlerts" = Message default_message.
Proof.
  destruct (upgrade_message_names_elite "smsAlerts" k_smsAlerts)
    as (_ & _ & Hgranted).
  split; [reflexivity|]. split; [|reflexivity].
  apply Hgranted. discriminate.
Defined.

(** A name inherited from [Object.prototype] is the one input for which the
    result is not a message. *)
Example upgrade_message_inherited :
  getUpgradeMessage "constructor" = InheritedMember "constructor" ∧
  getUpgradeMessage "no such feature" = Message default_message.
Proof. done. Qed.

(** The badge is the elite one for "elite" and the plain one for every other
    tier, "pro" included. *)
Example badge_colors :
  getPlanBadgeColor (Some "elite") = colors_elite ∧
  getPlanBadgeColor (Some "pro") = colors_none ∧
  getPlanBadgeColor None = colors_none.
Proof. done. Qed.

Lemma truthy_hasYearlyPrice (plan : Pricing.SubscriptionPlan) :
  truthy (Pricing.hasYearlyPrice plan) = true ↔
  ∃ x, Pricing.yearlyPrice plan = Pricing.Num x ∧
    Pricing.positive_number x = true.
Proof.
  unfold Pricing.hasYearlyPrice.
  destruct (Pricing.yearlyPrice plan) as [|x]; simpl.
  - split; [done | by intros (x & ? & _)].
  - split.
    + intros Htruthy. exists x. split; [done|].
      by destruct x as [sign | sign | | sign m e]; simpl in *.
    + intros (x' & [= <-] & Hpositive).
      by destruct x as [sign | sign | | sign m e]; simpl in *.
Qed.



(** X4: the effect that switches Annual off keeps it on only if some plan
    has a truthy yearly price, leaves it alone from then on, and never
    switches it off while the card of one of the plans shows a yearly
    price. *)
Theorem annual_switch_settles (isAnnual : bool)
    (subscriptionPlans : list Pricing.SubscriptionPlan) :
  let settled := Pricing.auto_switch isAnnual subscriptionPlans in
  (settled = true → isAnnual = true ∧
     ∃ plan, plan ∈ subscriptionPlans ∧
       truthy (Pricing.as_value (Pricing.yearlyPrice plan)) = true) ∧
  Pricing.auto_switch settled subscriptionPlans = settled ∧
  (∀ plan, plan ∈ Pricing.activePlans subscriptionPlans →
     truthy (Pricing.showYearlyPrice isAnnual plan) = true →
     settled = true).
Proof.
  intros settled. unfold settled, Pricing.auto_switch. split; [|split].
  - destruct isAnnual; simpl; [|done].
    destruct (Pricing.hasYearlyPlans subscriptionPlans) eqn:Hsome; [|done].
    intros _. split; [done|].
    apply existsb_exists in Hsome as (plan & Hin & Htruthy).
    exists plan. by rewrite list_elem_of_In.
  - destruct isAnnual; simpl; [|done].
    by destruct (Pricing.hasYearlyPlans subscriptionPlans) eqn:Hsome; simpl;
      rewrite ?Hsome.
  - intros plan Hin Hshow. unfold Pricing.showYearlyPrice in Hshow.
    destruct isAnnual; [|done]. simpl.
    assert (Pricing.hasYearlyPlans subscriptionPlans = true) as ->; [|done].
    apply existsb_exists. exists plan. split.
    + apply list_elem_of_In in Hin. unfold Pricing.activePlans in Hin.
      by apply filter_In in Hin as [Hin _].
    + apply truthy_hasYearlyPrice in Hshow as (x & -> & Hpositive).
      by destruct x as [sign | sign | | sign m e].
Qed.

Lemma annual_switch_settles_witness :
  let plan :=
    {| Pricing.id := "p1"; Pricing.name := "Elite"; Pricing.tier := "elite";
       Pricing.monthlyPrice := S754_finite false 4999 0;
       Pricing.yearlyPrice := Pricing.Num (S754_finite false 49990 0);
       Pricing.features := []; Pricing.maxSignals := Pricing.Null;
       Pricing.maxTickers := Pricing.Null; Pricing.isActive := true |} in
  Pricing.auto_switch true [plan] = true ∧
  Pricing.auto_switch true [] = false.
Proof.
  intros plan.
  destruct (annual_switch_settles true [plan]) as (_ & _ & Hkept).
  split; [|reflexivity].
  apply (Hkept plan); [|reflexivity].
  apply list_elem_of_In. simpl. by left.
Defined.

(** A negative yearly price keeps the Annual switch on although no card
    shows a yearly price. *)
Example annual_without_yearly_card :
  let plan :=
    {| Pricing.id := "p1"; Pricing.name := "Basic"; Pricing.tier := "basic";
       Pricing.monthlyPrice := S754_finite false 999 0;
       Pricing.yearlyPrice := Pricing.Num (S754_finite true 1 0);
       Pricing.features := []; Pricing.maxSignals := Pricing.Null;
       Pricing.maxTickers := Pricing.Null; Pricing.isActive := true |} in
  Pricing.auto_switch true [plan] = true ∧
  Pricing.card_period true plan = "month" ∧
  Pricing.billingInterval (Pricing.stripe_request true plan) = "monthly".
Proof. done. Qed.

(** * Further properties: the signal buffer and inbound frames *)

(** X5: pushing at least one signal onto any buffer leaves the newest 50 of
    the pushed signals followed by the old content, newest first; nothing is
    deduplicated or reordered. *)
Theorem buffer_is_newest_50 {A : Type} (signals buffer : list A) :
  signals ≠ [] →
  push_all signals buffer = take 50 (reverse signals ++ buffer).
Proof.
  induction signals as [|signal signals IH] using rev_ind; [done|].
  intros _. rewrite push_all_snoc, reverse_snoc. unfold prepend_signal.
  destruct signals as [|first rest].
  - by destruct buffer.
  - rewrite IH by done. simpl. f_equal. rewrite take_take. f_equal.
Qed.

Lemma buffer_is_newest_50_witness :
  push_all [1%nat; 1%nat; 2%nat] [7%nat] = [2%nat; 1%nat; 1%nat; 7%nat].
Proof. rewrite (buffer_is_newest_50 [1%nat; 1%nat; 2%nat] [7%nat]); done. Defined.

Lemma step_WsMessage (B : Browser) (W : string → M nat) (s : State) (ws : nat)
    (url : string) (r : Render) (event_data : option value) :
  sockets s !! ws = Some (Native url OPEN (Some r)) →
  step B W (WsMessage ws event_data) s = Some (dispatch (onmessage event_data) s).
Proof. intros Hws. unfold step. by rewrite Hws. Qed.

Lemma signal_tag_object (message : value) (tag : string) :
  get_prop message "type" = inr (VStr tag) →
  ∃ props, message = VObj props ∧ own_prop props "type" = VStr tag.
Proof.
  destruct message as [| | | | |items|props]; try discriminate.
  intros [= Htag]. by exists props.
Qed.



(** X7: a frame tagged "connection" is logged twice, as received and as
    confirmed, and changes nothing else at all. *)
Theorem connection_frame_only_logs (B : Browser) (s : State) (ws : nat)
    (url : string) (r : Render) (message : value) :
  sockets s !! ws = Some (Native url OPEN (Some r)) →
  get_prop message "type" = inr (VStr "connection") →
  app_step B (WsMessage ws (Some message)) s =
    Some (with_console
            (console s ++
               [ConsoleLog "WebSocket message received:";
                ConsoleLog "WebSocket connection confirmed:"]) s).
Proof.
  intros Hws Htype. unfold app_step.
  rewrite (step_WsMessage _ _ _ _ _ _ _ Hws).
  destruct (signal_tag_object _ _ Htype) as (props & -> & Htag).
  unfold dispatch, onmessage, try_catch, mbind, M_bind.
  cbn. rewrite Htag. cbn. by rewrite <- app_assoc.
Qed.

Lemma connection_frame_only_logs_witness :
  ∃ s', app_step localhost
          (WsMessage 0 (Some (VObj [("type", VStr "connection");
                                    ("message", VStr "welcome")])))
          streaming_open = Some s' ∧
    liveSignals s' = [] ∧ toasts s' = [ToastConnected].
Proof.
  eexists. split.
  - apply (connection_frame_only_logs localhost streaming_open 0
             "ws://localhost:5000/ws" first_on); reflexivity.
  - done.
Defined.

(** * Further properties: the supervisor in every reachable state *)

Lemma disconnectWebSocket_disconnected (s : State) :
  disconnectWebSocket s = Ok tt (disconnected s).
Proof. apply disconnectWebSocket_effect. Qed.

Lemma connectWebSocket_connected (B : Browser) (r : Render) (s : State) :
  connectWebSocket B (WebSocket_override B) r s = Ok tt (connected B r s).
Proof.
  unfold connected. destruct (accepts_socket_url B) eqn:Haccepts.
  - by apply connectWebSocket_accepts.
  - by apply connectWebSocket_refuses.
Qed.

Lemma step_toggle (B : Browser) (s : State) :
  app_step B ClickToggleStreaming s = Some (toggled B s).
Proof.
  unfold app_step, step, toggled, dispatch, effect_cleanup, effect,
    toggleStreaming, setIsStreaming.
  cbn [modify current_render r_isStreaming].
  rewrite !disconnectWebSocket_disconnected.
  cbn [current_render r_isStreaming].
  destruct (isStreaming (disconnected _)).
  - by rewrite connectWebSocket_connected.
  - by rewrite disconnectWebSocket_disconnected.
Qed.

Lemma step_timer (B : Browser) (s : State) (timer : nat) (t : Timer) :
  timers s !! timer = Some t → tm_pending t = true →
  app_step B (TimerFired timer) s =
    Some (connected B (tm_render t)
            (with_connectionAttempts (S (connectionAttempts s))
               (with_timers (<[timer := clear_pending t]> (timers s)) s))).
Proof.
  intros Htimer Hpending. unfold app_step, step. rewrite Htimer, Hpending.
  unfold dispatch, reconnect_callback, mbind, M_bind, setConnectionAttempts,
    modify.
  rewrite connectWebSocket_connected. cbn. by rewrite Nat.add_1_r.
Qed.

(** What must hold for an event to occur. *)
Lemma step_WsOpen_enabled (B : Browser) (s s' : State) (ws : nat) :
  app_step B (WsOpen ws) s = Some s' →
  ∃ url r, sockets s !! ws = Some (Native url CONNECTING (Some r)).
Proof.
  unfold app_step, step. intros Hstep.
  repeat case_match; simplify_eq; by eauto.
Qed.

Lemma step_WsClose_enabled (B : Browser) (s s' : State) (ws : nat) :
  app_step B (WsClose ws) s = Some s' →
  ∃ url rs r, sockets s !! ws = Some (Native url rs (Some r)) ∧ rs ≠ CLOSED.
Proof.
  unfold app_step, step. intros Hstep.
  repeat case_match; simplify_eq; by eauto.
Qed.

Lemma step_TimerFired_enabled (B : Browser) (s s' : State) (timer : nat) :
  app_step B (TimerFired timer) s = Some s' →
  ∃ t, timers s !! timer = Some t ∧ tm_pending t = true.
Proof.
  unfold app_step, step. intros Hstep.
  repeat case_match; simplify_eq; by eauto.
Qed.

Ltac keeps_control_modify :=
  apply keeps_modify; unfold control_state; cbn;
  intros ? [? ?]; split; assumption.

Ltac keeps_control :=
  lazymatch goal with
  | |- keeps _ (mret _) => apply keeps_ret
  | |- keeps _ (throw _) => apply keeps_throw
  | |- keeps _ (lift _) => apply keeps_lift
  | |- keeps _ (_ ≫= _) => apply keeps_bind; [|intros ?]
  | |- keeps _ (try_catch _ _) => apply keeps_try_catch; [|intros ?]
  | |- keeps _ (modify _) => keeps_control_modify
  | |- keeps _ (if _ then _ else _) => apply keeps_if
  | |- keeps _ (match ?x with _ => _ end) => destruct x
  end.

Ltac passive_callback :=
  lazymatch goal with
  | |- _ (dispatch _ _) =>
      apply keeps_dispatch;
      [ unfold_effects; repeat total_step
      | unfold_effects; repeat keeps_control
      | done ]
  end.

Lemma passive_step (B : Browser) (ev : Event) (s s' : State) :
  passive ev = true → app_step B ev s = Some s' →
  control_state s' = control_state s ∧ uncaught s' = uncaught s.
Proof.
  intros Hpassive Hstep. unfold app_step, step in Hstep.
  destruct ev; try discriminate Hpassive; repeat case_match; simplify_eq.
  all: lazymatch goal with
       | |- control_state (dispatch ?m ?s0) = _ ∧ _ =>
           change ((λ s', control_state s' = control_state s0
                          ∧ uncaught s' = uncaught s0) (dispatch m s0))
       end.
  all: passive_callback.
Qed.



Lemma run_invariant (B : Browser) (I : State → Prop) :
  (∀ ev s s', I s → app_step B ev s = Some s' → I s') →
  ∀ evs s s', I s → app_run B evs s = Some s' → I s'.
Proof.
  intros Hstep evs. unfold app_run.
  induction evs as [|ev evs IH]; intros s s' Hs Hrun; simpl in Hrun.
  - by simplify_eq.
  - destruct (step B (WebSocket_override B) ev s) as [s1|] eqn:Hev; [|done].
    eapply IH; [|exact Hrun]. by eapply Hstep.
Qed.



Lemma socket_handlers_close (o : SocketObject) :
  socket_handlers (close_socket o) = socket_handlers o.
Proof. by destruct o as [url [] h|h]. Qed.

Lemma socket_handlers_readyState (rs : ReadyState) (o : SocketObject) :
  socket_handlers (set_readyState rs o) = socket_handlers o.
Proof. by destruct o. Qed.

Lemma disconnected_sockets (Q : SocketObject → Prop) (s : State) :
  (∀ o, Q o → Q (close_socket o)) →
  Forall Q (sockets s) → Forall Q (sockets (disconnected s)).
Proof.
  intros Hclose Hall. unfold disconnected.
  destruct (wsRef s) as [ws|]; [|done].
  destruct (sockets s !! ws) as [o|] eqn:Hws; [|done]. cbn.
  apply Forall_insert; [done|]. apply Hclose.
  by eapply Forall_lookup_1.
Qed.

Lemma disconnected_frame (s : State) :
  timers (disconnected s) = timers s ∧
  isStreaming (disconnected s) = isStreaming s ∧
  connectionAttempts (disconnected s) = connectionAttempts s ∧
  liveSignals (disconnected s) = liveSignals s ∧
  toasts (disconnected s) = toasts s ∧
  uncaught (disconnected s) = uncaught s ∧
  isConnected (disconnected s) = false ∧
  length (sockets (disconnected s)) = length (sockets s).
Proof.
  unfold disconnected.
  destruct (wsRef s) as [ws|]; [|done].
  destruct (sockets s !! ws) as [o|]; [|done]. cbn.
  by rewrite length_insert.
Qed.

Lemma disconnected_wsRef (s : State) : wsRef (disconnected s) = None.
Proof.
  unfold disconnected. destruct (wsRef s) as [ws|] eqn:Href; [done|].
  exact Href.
Qed.

(** The socket object that [connectWebSocket] of render [r] creates. *)
Lemma connected_sockets (B : Browser) (r : Render) (s : State) :
  ∃ o, sockets (connected B r s) = sockets s ++ [o] ∧
    socket_handlers o = Some r ∧
    is_mock o = negb (accepts_socket_url B).
Proof. unfold connected. destruct (accepts_socket_url B); by eexists. Qed.

Lemma connected_frame (B : Browser) (r : Render) (s : State) :
  timers (connected B r s) = timers s ∧
  isStreaming (connected B r s) = isStreaming s ∧
  connectionAttempts (connected B r s) = connectionAttempts s ∧
  liveSignals (connected B r s) = liveSignals s ∧
  toasts (connected B r s) = toasts s ∧
  uncaught (connected B r s) = uncaught s ∧
  isConnected (connected B r s) = isConnected s ∧
  wsRef (connected B r s) = Some (length (sockets s)).
Proof. unfold connected. by destruct (accepts_socket_url B). Qed.

(** X10: a click on the toggle flips the streaming flag and leaves the page
    disconnected; it keeps the buffer, the retry counter, the timers and the
    toasts.  Switching off empties [wsRef]; switching on stores a new socket
    whose closures hold the retry counter as it is at the click. *)
Theorem toggle_keeps_buffer_and_counter (B : Browser) (s : State) :
  ∃ s', app_step B ClickToggleStreaming s = Some s' ∧
    isStreaming s' = negb (isStreaming s) ∧
    isConnected s' = false ∧
    connectionAttempts s' = connectionAttempts s ∧
    liveSignals s' = liveSignals s ∧
    timers s' = timers s ∧ toasts s' = toasts s ∧
    uncaught s' = uncaught s ∧
    (isStreaming s = true → wsRef s' = None) ∧
    (isStreaming s = false →
       wsRef s' = Some (length (sockets s)) ∧
       ∃ o, sockets s' !! length (sockets s) = Some o ∧
         socket_handlers o =
           Some {| r_isStreaming := true;
                   r_connectionAttempts := connectionAttempts s |}).
Proof.
  rewrite step_toggle. eexists. split; [reflexivity|]. unfold toggled.
  set (s1 := with_isStreaming (negb (isStreaming s)) s).
  destruct (disconnected_frame s1)
    as (Ht & Hs & Hc & Hb & Hto & Hu & Hconn & Hlen).
  cbn [s1 with_isStreaming isStreaming timers connectionAttempts liveSignals
       toasts uncaught sockets] in Ht, Hs, Hc, Hb, Hto, Hu, Hlen.
  cbv zeta. rewrite Hs.
  destruct (isStreaming s) eqn:Hflag; cbn [negb].
  - destruct (disconnected_frame (disconnected s1))
      as (Ht' & Hs' & Hc' & Hb' & Hto' & Hu' & Hconn' & _).
    rewrite Ht', Hs', Hc', Hb', Hto', Hu', Hconn', Ht, Hs, Hc, Hb, Hto, Hu.
    repeat split; try done.
    intros _. apply disconnected_wsRef.
  - destruct (connected_frame B (current_render (disconnected s1))
                (disconnected s1))
      as (Ht' & Hs' & Hc' & Hb' & Hto' & Hu' & Hconn' & Href).
    rewrite Ht', Hs', Hc', Hb', Hto', Hu', Hconn', Href, Hlen,
      Ht, Hs, Hc, Hb, Hto, Hu, Hconn.
    repeat split; try done.
    destruct (connected_sockets B (current_render (disconnected s1))
                (disconnected s1)) as (o & -> & Hhandlers & _).
    exists o. split; [by apply lookup_end|].
    rewrite Hhandlers. unfold current_render. by rewrite Hs, Hc.
Qed.

Lemma toggle_keeps_buffer_and_counter_witness :
  ∃ s', app_step localhost ClickToggleStreaming budget_spent = Some s' ∧
    isStreaming s' = false ∧ connectionAttempts s' = 5%nat ∧
    wsRef s' = None.
Proof.
  destruct (toggle_keeps_buffer_and_counter localhost budget_spent)
    as (s' & Hstep & Hflag & _ & Hcounter & _ & _ & _ & _ & Hoff & _).
  exists s'. split; [exact Hstep|]. split; [exact Hflag|].
  split; [exact Hcounter|]. apply Hoff. reflexivity.
Defined.

(** ** The closures that sockets and timers hold *)

Lemma reconnect_timer_in_schedule (r : Render) :
  r_isStreaming r && (r_connectionAttempts r <? 5)%nat = true →
  timer_in_schedule (reconnect_timer r).
Proof.
  intros [Hon Hfew%Nat.ltb_lt]%andb_true_iff. by repeat split.
Qed.

Lemma clear_pending_in_schedule (t : Timer) :
  timer_in_schedule t → timer_in_schedule (clear_pending t).
Proof. by intros (? & ? & ?). Qed.

Lemma step_closures_streaming (B : Browser) (ev : Event) (s s' : State) :
  closures_streaming s → app_step B ev s = Some s' → closures_streaming s'.
Proof.
  intros [Hsockets Htimers] Hstep. unfold closures_streaming.
  destruct (passive ev) eqn:Hpassive.
  { destruct (passive_step B ev s s' Hpassive Hstep) as [Hcontrol _].
    unfold control_state in Hcontrol.
    injection Hcontrol as _ _ _ _ Hsame_sockets Hsame_timers.
    by rewrite Hsame_sockets, Hsame_timers. }
  destruct ev; try discriminate Hpassive.
  - rewrite step_toggle in Hstep. injection Hstep as <-. unfold toggled.
    set (s1 := with_isStreaming (negb (isStreaming s)) s).
    assert (Forall handlers_streaming (sockets (disconnected s1))) as Hs1.
    { apply disconnected_sockets; [|done].
      intros o Ho r. rewrite socket_handlers_close. apply Ho. }
    destruct (disconnected_frame s1) as (Ht1 & _).
    cbv zeta. destruct (isStreaming (disconnected s1)) eqn:Hon.
    + destruct (connected_frame B (current_render (disconnected s1))
                  (disconnected s1)) as (-> & _).
      destruct (connected_sockets B (current_render (disconnected s1))
                  (disconnected s1)) as (o & -> & Hhandlers & _).
      rewrite Ht1. split; [|done].
      apply Forall_app. split; [done|]. apply Forall_singleton.
      intros r. rewrite Hhandlers. by intros [= <-].
    + destruct (disconnected_frame (disconnected s1)) as (-> & _).
      rewrite Ht1. split; [|done].
      apply disconnected_sockets; [|done].
      intros o Ho r. rewrite socket_handlers_close. apply Ho.
  - destruct (step_WsOpen_enabled B s s' ws Hstep) as (url & r & Hws).
    unfold app_step in Hstep. rewrite (step_WsOpen _ _ _ _ _ _ Hws) in Hstep.
    injection Hstep as <-. cbn. split; [|done].
    apply Forall_insert; [done|].
    intros r'. cbn. intros [= <-].
    by apply (Forall_lookup_1 _ _ _ _ Hsockets Hws).
  - destruct (step_WsClose_enabled B s s' ws Hstep)
      as (url & rs & r & Hws & Hrs).
    unfold app_step in Hstep.
    rewrite (step_WsClose _ _ _ _ _ _ _ Hws Hrs) in Hstep.
    injection Hstep as <-. cbv zeta.
    assert (Forall handlers_streaming
              (<[ws := Native url CLOSED (Some r)]> (sockets s))) as Hs1.
    { apply Forall_insert; [done|].
      intros r'. cbn. intros [= <-].
      by apply (Forall_lookup_1 _ _ _ _ Hsockets Hws). }
    destruct (r_isStreaming r && (r_connectionAttempts r <? 5)%nat) eqn:Hretry;
      cbn; (split; [done|]); [|done].
    apply Forall_app. split; [done|]. apply Forall_singleton.
    by apply reconnect_timer_in_schedule.
  - destruct (step_TimerFired_enabled B s s' timer Hstep)
      as (t & Htimer & Hpending).
    rewrite (step_timer _ _ _ _ Htimer Hpending) in Hstep.
    injection Hstep as <-.
    pose proof (Forall_lookup_1 _ _ _ _ Htimers Htimer) as Ht.
    destruct (connected_frame B (tm_render t)
                (with_connectionAttempts (S (connectionAttempts s))
                   (with_timers (<[timer := clear_pending t]> (timers s)) s)))
      as (-> & _).
    destruct (connected_sockets B (tm_render t)
                (with_connectionAttempts (S (connectionAttempts s))
                   (with_timers (<[timer := clear_pending t]> (timers s)) s)))
      as (o & -> & Hhandlers & _).
    cbn. split.
    + apply Forall_app. split; [done|]. apply Forall_singleton.
      intros r. rewrite Hhandlers. intros [= <-]. by destruct Ht.
    + apply Forall_insert; [done|]. by apply clear_pending_in_schedule.
Qed.

Lemma reachable_closures_streaming (B : Browser) (evs : list Event)
    (s : State) :
  app_run B evs initial = Some s → closures_streaming s.
Proof.
  apply (run_invariant B closures_streaming);
    [apply step_closures_streaming|].
  by split; apply Forall_nil.
Qed.

(** X11: in every reachable state the closures of every socket belong to a
    render with the stream on, so the [isStreaming] test of [onclose] never
    stops a reconnect: a socket that closes while its render holds fewer
    than 5 attempts sets a reconnect timer, even after the stream has been
    switched off. *)
Theorem close_reconnects_whatever_the_flag (B : Browser) (evs : list Event)
    (s : State) (ws : nat) (url : string) (rs : ReadyState) (r : Render) :
  app_run B evs initial = Some s →
  sockets s !! ws = Some (Native url rs (Some r)) → rs ≠ CLOSED →
  r_isStreaming r = true ∧
  ((r_connectionAttempts r < 5)%nat →
   ∃ s', app_step B (WsClose ws) s = Some s' ∧
     timers s' = timers s ++ [reconnect_timer r] ∧
     isStreaming s' = isStreaming s).
Proof.
  intros Hrun Hws Hrs.
  destruct (reachable_closures_streaming B evs s Hrun) as [Hsockets _].
  assert (r_isStreaming r = true) as Hon
    by (by apply (Forall_lookup_1 _ _ _ _ Hsockets Hws)).
  split; [done|]. intros Hfew. unfold app_step.
  rewrite (step_WsClose _ _ _ _ _ _ _ Hws Hrs), Hon.
  replace (r_connectionAttempts r <? 5)%nat with true
    by (symmetry; by apply Nat.ltb_lt).
  by eexists.
Qed.

Lemma close_reconnects_whatever_the_flag_witness :
  app_run localhost [ClickToggleStreaming; WsOpen 0; ClickToggleStreaming]
    initial = Some stopped_while_open ∧
  isStreaming stopped_while_open = false ∧
  ∃ s', app_step localhost (WsClose 0) stopped_while_open = Some s' ∧
    timers s' = [reconnect_timer first_on] ∧ isStreaming s' = false.
Proof.
  split; [vm_compute; reflexivity|]. split; [reflexivity|].
  destruct (close_reconnects_whatever_the_flag localhost
              [ClickToggleStreaming; WsOpen 0; ClickToggleStreaming]
              stopped_while_open 0 "ws://localhost:5000/ws" CLOSING first_on)
    as (_ & Hclose); [vm_compute; reflexivity | reflexivity | discriminate |].
  destruct Hclose as (s' & Hstep & Htimers & Hflag); [simpl; lia|].
  exists s'. split; [exact Hstep|]. split; [exact Htimers | exact Hflag].
Defined.

(** X12: every timer the page ever sets waits 1, 2, 4, 8 or 16 seconds:
    its delay is [2 ^ n] seconds for the [n < 5] its closure holds. *)
Theorem reconnect_delays_in_schedule (B : Browser) (evs : list Event)
    (s : State) (t : Timer) :
  app_run B evs initial = Some s → t ∈ timers s →
  tm_delay t ∈ [1000; 2000; 4000; 8000; 16000] ∧
  tm_delay t = 2 ^ Z.of_nat (r_connectionAttempts (tm_render t)) * 1000.
Proof.
  intros Hrun Ht.
  destruct (reachable_closures_streaming B evs s Hrun) as [_ Htimers].
  rewrite Forall_forall in Htimers.
  destruct (Htimers t Ht) as (_ & Hfew & Hdelay). split; [|done].
  rewrite Hdelay.
  destruct (r_connectionAttempts (tm_render t)) as [|[|[|[|[|n]]]]];
    [apply list_elem_of_In; vm_compute; auto 10.. | lia].
Qed.

Lemma reconnect_delays_in_schedule_witness :
  app_run localhost (reopened_after_1 ++ [WsClose 2]) initial
    = Some second_session_closed ∧
  tm_delay <$> timers second_session_closed = [1000; 2000] ∧
  2000 ∈ [1000; 2000; 4000; 8000; 16000].
Proof.
  split; [vm_compute; reflexivity|]. split; [reflexivity|].
  destruct (reconnect_delays_in_schedule localhost
              (reopened_after_1 ++ [WsClose 2]) second_session_closed
              {| tm_delay := 2000;
                 tm_render := {| r_isStreaming := true;
                                 r_connectionAttempts := 1 |};
                 tm_pending := true |}) as [Hin _];
    [vm_compute; reflexivity | | exact Hin].
  apply list_elem_of_lookup. by exists 1%nat.
Defined.

(** X13: when a reconnect timer fires, the live retry counter goes up by
    one and a new socket is created and stored in [wsRef]; its closures are
    those of the timer's render, not of the live state.  Every socket that
    existed before is left as it was, open or not, and no toast is
    shown. *)
Theorem timer_reconnects_with_its_render (B : Browser) (s : State)
    (timer : nat) (t : Timer) :
  timers s !! timer = Some t → tm_pending t = true →
  ∃ s' o, app_step B (TimerFired timer) s = Some s' ∧
    sockets s' = sockets s ++ [o] ∧
    socket_handlers o = Some (tm_render t) ∧
    wsRef s' = Some (length (sockets s)) ∧
    connectionAttempts s' = S (connectionAttempts s) ∧
    timers s' = <[timer := clear_pending t]> (timers s) ∧
    isConnected s' = isConnected s ∧ isStreaming s' = isStreaming s ∧
    toasts s' = toasts s ∧ uncaught s' = uncaught s.
Proof.
  intros Htimer Hpending. rewrite (step_timer _ _ _ _ Htimer Hpending).
  set (s1 := with_connectionAttempts (S (connectionAttempts s))
               (with_timers (<[timer := clear_pending t]> (timers s)) s)).
  destruct (connected_sockets B (tm_render t) s1) as (o & Hsockets & Hh & _).
  destruct (connected_frame B (tm_render t) s1)
    as (Ht & Hs & Hc & _ & Hto & Hu & Hconn & Href).
  exists (connected B (tm_render t) s1), o.
  by rewrite Hsockets, Ht, Hs, Hc, Hto, Hu, Hconn, Href.
Qed.

Lemma timer_reconnects_with_its_render_witness :
  app_run localhost [ClickToggleStreaming; WsError 0; WsClose 0] initial
    = Some awaiting_reconnect ∧
  ∃ s', app_step localhost (TimerFired 0) awaiting_reconnect = Some s' ∧
    connectionAttempts s' = 1%nat ∧ wsRef s' = Some 1%nat.
Proof.
  split; [vm_compute; reflexivity|].
  destruct (timer_reconnects_with_its_render localhost awaiting_reconnect 0
              (reconnect_timer first_on) eq_refl eq_refl)
    as (s' & o & Hstep & _ & _ & Href & Hcounter & _).
  exists s'. split; [exact Hstep|]. split; [exact Hcounter | exact Href].
Defined.


(** ** A browser that refuses the socket URL *)

Lemma mock_not_native (s : State) (ws : nat) (url : string)
    (rs : ReadyState) (h : option Render) :
  Forall (λ o, is_mock o = true) (sockets s) →
  sockets s !! ws = Some (Native url rs h) → False.
Proof.
  intros Hmocks Hws. by pose proof (Forall_lookup_1 _ _ _ _ Hmocks Hws).
Qed.

Lemma step_dead (B : Browser) (ev : Event) (s s' : State) :
  accepts_socket_url B = false →
  dead s → app_step B ev s = Some s' → dead s'.
Proof.
  intros Hrefused (Hconn & Htimers & Hmocks & Htoasts) Hstep.
  destruct ev.
  - rewrite step_toggle in Hstep. injection Hstep as <-. unfold toggled.
    set (s1 := with_isStreaming (negb (isStreaming s)) s).
    assert (Forall (λ o, is_mock o = true) (sockets (disconnected s1))) as Hs1.
    { apply disconnected_sockets; [|done]. by intros [url [] h|h]. }
    destruct (disconnected_frame s1)
      as (Ht1 & _ & _ & _ & Hto1 & _ & Hconn1 & _).
    cbv zeta. unfold dead. destruct (isStreaming (disconnected s1)).
    + destruct (connected_frame B (current_render (disconnected s1))
                  (disconnected s1))
        as (-> & _ & _ & _ & -> & _ & -> & _).
      destruct (connected_sockets B (current_render (disconnected s1))
                  (disconnected s1)) as (o & -> & _ & Hmock).
      rewrite Ht1, Hto1, Hconn1. repeat split; try done.
      apply Forall_app. split; [done|]. apply Forall_singleton.
      by rewrite Hmock, Hrefused.
    + destruct (disconnected_frame (disconnected s1))
        as (-> & _ & _ & _ & -> & _ & -> & _).
      rewrite Ht1, Hto1. repeat split; try done.
      apply disconnected_sockets; [|done]. by intros [url [] h|h].
  - unfold app_step, step in Hstep. by simplify_eq.
  - unfold app_step, step in Hstep. by simplify_eq.
  - unfold app_step, step in Hstep.
    destruct (pendingTestSignals s); [done|]. simplify_eq.
    destruct ok; cbn; repeat split; try done;
      (apply Forall_app; split; [done|]; by apply Forall_singleton).
  - destruct (step_WsOpen_enabled B s s' ws Hstep) as (url & r & Hws).
    by destruct (mock_not_native s ws url CONNECTING (Some r)).
  - unfold app_step, step in Hstep.
    destruct (sockets s !! ws) as [[url rs h|h]|] eqn:Hws; [|done|done].
    by destruct (mock_not_native s ws url rs h).
  - unfold app_step, step in Hstep.
    destruct (sockets s !! ws) as [[url rs h|h]|] eqn:Hws; [|done|done].
    by destruct (mock_not_native s ws url rs h).
  - destruct (step_WsClose_enabled B s s' ws Hstep)
      as (url & rs & r & Hws & _).
    by destruct (mock_not_native s ws url rs (Some r)).
  - destruct (step_TimerFired_enabled B s s' timer Hstep)
      as (t & Htimer & _).
    by rewrite Htimers in Htimer.
Qed.

(** X15: in a browser that refuses the socket URL nothing the user or the
    network does brings the page to life: it never shows as connected, no
    reconnect timer is ever set, every socket is the inert mock, and the
    only toasts are those of the test-signal button; the failure itself is
    never announced. *)
Theorem refused_socket_stays_dead (B : Browser) (evs : list Event)
    (s : State) :
  accepts_socket_url B = false →
  app_run B evs initial = Some s →
  isConnected s = false ∧ timers s = [] ∧
  Forall (λ o, is_mock o = true) (sockets s) ∧
  Forall (λ t, is_test_signal_toast t = true) (toasts s).
Proof.
  intros Hrefused.
  apply (run_invariant B dead);
    [intros ev s0 s1; by apply step_dead|].
  by repeat split.
Qed.

Lemma refused_socket_stays_dead_witness :
  ∃ s, app_run refusing
         [ClickToggleStreaming; ClickToggleStreaming; ClickToggleStreaming]
         initial = Some s ∧
    isStreaming s = true ∧ isConnected s = false ∧ timers s = [] ∧
    toasts s = [].
Proof.
  eexists. split; [vm_compute; reflexivity|]. split; [reflexivity|].
  match goal with
  | |- isConnected ?s = _ ∧ _ =>
      destruct (refused_socket_stays_dead refusing
                  [ClickToggleStreaming; ClickToggleStreaming;
                   ClickToggleStreaming] s eq_refl)
        as (Hconn & Htimers & _); [vm_compute; reflexivity|]
  end.
  split; [exact Hconn|]. split; [exact Htimers | reflexivity].
Defined.
